(** * Tobi backend: the transactional core of [core/views.py]

    A shallow embedding of the money-bearing views of the Django
    application (bookings, commissions, gifts, investments and the payment
    webhook) over an explicit model of the relational store, and the
    properties of the specification settled against it.

    Conventions of the embedding.
    - A table is a finite map from primary key to row ([gmap nat _]); a
      foreign key is the primary key of the row it points to.
    - [DecimalField] values are exact rationals ([Q]): the views only add,
      subtract, compare and multiply by the literals [Decimal("0.10")] and
      [Decimal("0.60")], all of which Python's [Decimal] performs exactly on
      values of at most twelve digits.  Quantisation of a stored value by the
      database column is not part of the views and is not modelled.
    - [DateField] values are day numbers and [DateTimeField] values are
      microsecond counts, both in [Z].
    - A view takes the store and returns the store it leaves behind together
      with its outcome: a [Response], a [ValidationError], a refused
      permission, or an uncaught exception. *)

From Stdlib Require Import QArith Lqa ZArith.
From stdpp Require Import gmap strings list fin_maps.

Abbreviation Decimal := Q.

(** ** core/models.py *)

Module User.
Inductive Role := CUSTOMER | AGENT | INVESTOR | ADMIN.

#[global] Instance Role_eq_dec : EqDecision Role.
Proof. solve_decision. Defined.

Record t := mk {
  email : string;
  role : Role;
  is_verified : bool;
  membership_tier : option string;
  membership_expires_at : option Z;
  shortlet_credit : Decimal;
  is_staff : bool
}.

Definition set_membership (tier : string) (expires : Z) (u : t) : t :=
  mk (email u) (role u) (is_verified u) (Some tier) (Some expires)
     (shortlet_credit u) (is_staff u).

Definition set_shortlet_credit (c : Decimal) (u : t) : t :=
  mk (email u) (role u) (is_verified u) (membership_tier u)
     (membership_expires_at u) c (is_staff u).

Definition set_is_verified (v : bool) (u : t) : t :=
  mk (email u) (role u) v (membership_tier u)
     (membership_expires_at u) (shortlet_credit u) (is_staff u).

(** The Decimal-valued attributes an instance carries are the model's
    Decimal fields: [shortlet_credit] is the only one declared.  Reading
    any other name raises [AttributeError] ([None] here). *)
Definition getattr_decimal (u : t) (name : string) : option Decimal :=
  if String.eqb name "shortlet_credit" then Some (shortlet_credit u) else None.

(** Assigning a declared field changes what [save] writes; assigning any
    other name only decorates the Python object. *)
Definition setattr_decimal (u : t) (name : string) (v : Decimal) : t :=
  if String.eqb name "shortlet_credit" then set_shortlet_credit v u else u.
End User.

Module Property.
Record t := mk {
  agent : nat;
  title : string;
  price : Decimal;
  property_type : string;
  cost_price : option Decimal;
  is_available : bool;
  is_approved : bool
}.
End Property.

Module Booking.
Record t := mk {
  user : nat;
  property : nat;
  start_date : Z;
  end_date : Z;
  total_price : Decimal;
  is_cancelled : bool;
  is_paid : bool;
  tx_ref : option string
}.

Definition set_is_paid (v : bool) (b : t) : t :=
  mk (user b) (property b) (start_date b) (end_date b) (total_price b)
     (is_cancelled b) v (tx_ref b).

Definition set_is_cancelled (v : bool) (b : t) : t :=
  mk (user b) (property b) (start_date b) (end_date b) (total_price b)
     v (is_paid b) (tx_ref b).
End Booking.

Module Commission.
Record t := mk {
  agent : nat;
  booking : nat;
  amount : Decimal;
  withdrawal_requested : bool;
  is_withdrawn : bool
}.

Definition set_flags (requested withdrawn : bool) (c : t) : t :=
  mk (agent c) (booking c) (amount c) requested withdrawn.
End Commission.

Module Gift.
Record t := mk {
  sender : nat;
  recipient_email : string;
  recipient_user : option nat;
  property : nat;
  status : string;
  expires_at : option Z;
  reassigned_to : option nat;
  converted_to_credit : bool
}.

Definition set_status (s : string) (g : t) : t :=
  mk (sender g) (recipient_email g) (recipient_user g) (property g) s
     (expires_at g) (reassigned_to g) (converted_to_credit g).

Definition set_converted_to_credit (v : bool) (g : t) : t :=
  mk (sender g) (recipient_email g) (recipient_user g) (property g)
     (status g) (expires_at g) (reassigned_to g) v.

Definition set_recipient (mail : string) (who : option nat) (g : t) : t :=
  mk (sender g) mail who (property g) (status g) (expires_at g) who
     (converted_to_credit g).
End Gift.

Module Investment.
Record t := mk {
  investor : nat;
  property : nat;
  payment_plan : string;
  total_price : Decimal;
  amount_paid : Decimal;
  remaining_balance : Decimal;
  status : string;
  tx_ref : option string
}.

Definition set_payment (paid remaining : Decimal) (st : string) (i : t) : t :=
  mk (investor i) (property i) (payment_plan i) (total_price i)
     paid remaining st (tx_ref i).
End Investment.

Module RefundLog.
Record t := mk {
  user : nat;
  amount : Decimal;
  reason : string
}.
End RefundLog.

(** ** The store *)

Record DB := mkDB {
  users : gmap nat User.t;
  properties : gmap nat Property.t;
  bookings : gmap nat Booking.t;
  commissions : gmap nat Commission.t;
  gifts : gmap nat Gift.t;
  investments : gmap nat Investment.t;
  refund_logs : gmap nat RefundLog.t
}.

Definition empty_db : DB := mkDB ∅ ∅ ∅ ∅ ∅ ∅ ∅.

Definition with_users (v : gmap nat User.t) (db : DB) : DB :=
  mkDB v (properties db) (bookings db) (commissions db) (gifts db)
       (investments db) (refund_logs db).

Definition with_bookings (v : gmap nat Booking.t) (db : DB) : DB :=
  mkDB (users db) (properties db) v (commissions db) (gifts db)
       (investments db) (refund_logs db).

Definition with_commissions (v : gmap nat Commission.t) (db : DB) : DB :=
  mkDB (users db) (properties db) (bookings db) v (gifts db)
       (investments db) (refund_logs db).

Definition with_gifts (v : gmap nat Gift.t) (db : DB) : DB :=
  mkDB (users db) (properties db) (bookings db) (commissions db) v
       (investments db) (refund_logs db).

Definition with_investments (v : gmap nat Investment.t) (db : DB) : DB :=
  mkDB (users db) (properties db) (bookings db) (commissions db) (gifts db)
       v (refund_logs db).

Definition with_refund_logs (v : gmap nat RefundLog.t) (db : DB) : DB :=
  mkDB (users db) (properties db) (bookings db) (commissions db) (gifts db)
       (investments db) v.

(** ** The object manager *)

(** [Model.objects.get(...)] on a condition that is not the primary key. *)
Inductive GetResult (A : Type) :=
  | NoRow
  | OneRow (pk : nat) (row : A)
  | ManyRows.
Arguments NoRow {A}.
Arguments OneRow {A} pk row.
Arguments ManyRows {A}.

Definition objects_filter {A} (P : A → bool) (t : gmap nat A) : gmap nat A :=
  filter (λ kv, P kv.2 = true) t.

Definition objects_get {A} (P : A → bool) (t : gmap nat A) : GetResult A :=
  match map_to_list (objects_filter P t) with
  | [] => NoRow
  | [(pk, row)] => OneRow pk row
  | _ => ManyRows
  end.

(** [queryset.exists()]. *)
Definition objects_exists {A} (P : A → bool) (t : gmap nat A) : bool :=
  bool_decide (map_Exists (λ _ row, P row = true) t).

(** [queryset.first()]: the primary key of a matching row, if any.  It is
    only used on [User.email], which is unique. *)
Definition objects_first {A} (P : A → bool) (t : gmap nat A) : option nat :=
  fst <$> head (map_to_list (objects_filter P t)).

(** The primary key an INSERT assigns: one the table does not hold. *)
Definition new_pk {A} (t : gmap nat A) : nat := fresh (dom t).

(** ** Outcomes and settings *)

Inductive Exception :=
  | IntegrityError
  | AttributeError
  | MultipleObjectsReturned
  | RelatedObjectDoesNotExist.

(** What a view answers.  A [Response] keeps the status code and the fixed
    text of its message; interpolated amounts and names are left out. *)
Inductive Outcome :=
  | Response (status : nat) (message : string)
  | Created (pk : nat)
  | ValidationError (detail : string)
  | ExpiredGifts (expired converted_to_credit : nat)
  | PermissionRefused
  | Raised (e : Exception).

(** The one project setting the views depend on.  Django's default is
    autocommit: every [save()] is its own transaction. *)
Record Settings := { ATOMIC_REQUESTS : bool }.

Definition django_defaults : Settings := {| ATOMIC_REQUESTS := false |}.

(** An exception escaping a view: with [ATOMIC_REQUESTS] the request's
    writes are rolled back to [db0], otherwise the saves made so far stay. *)
Definition escape (cfg : Settings) (db0 db : DB) (e : Exception) : DB * Outcome :=
  (if ATOMIC_REQUESTS cfg then db0 else db, Raised e).

(** [timedelta(days=n)] in microseconds. *)
Definition timedelta_days (n : Z) : Z := (n * 86400000000)%Z.

(** Truth value of a Decimal: non-zero. *)
Definition truthy (d : Decimal) : bool := negb (Qeq_bool d 0).

(** Permission classes. *)
Definition IsAuthenticated (db : DB) (actor : nat) : bool :=
  bool_decide (is_Some (users db !! actor)).

Definition IsAdminUser (db : DB) (actor : nat) : bool :=
  match users db !! actor with
  | Some u => User.is_staff u
  | None => false
  end.

(** ** Booking engine *)

Module BookingSerializer.
(** What [serializer.validated_data] holds for a booking request.  The
    serializer leaves [is_cancelled] writable ([False] unless sent). *)
Record validated_data := mk {
  property : nat;
  start_date : Z;
  end_date : Z;
  is_cancelled : bool
}.
End BookingSerializer.

(** Rows an INSERT into [Booking] collides with: [tx_ref] is unique and
    [(property, start_date, end_date)] is [unique_together]. *)
Definition Booking_same_dates (b : Booking.t) (row : Booking.t) : bool :=
  bool_decide (Booking.property row = Booking.property b)
  && bool_decide (Booking.start_date row = Booking.start_date b)
  && bool_decide (Booking.end_date row = Booking.end_date b).

Definition Booking_same_ref (r : option string) (row : Booking.t) : bool :=
  bool_decide (Booking.tx_ref row = r).

Definition Booking_collides (b : Booking.t) (row : Booking.t) : bool :=
  Booking_same_dates b row
  || (bool_decide (is_Some (Booking.tx_ref b)) && Booking_same_ref (Booking.tx_ref b) row).

(** [serializer.save(...)] of a booking: the row is inserted under a new
    primary key unless a uniqueness constraint refuses it. *)
Definition Booking_create (cfg : Settings) (db0 db : DB) (b : Booking.t) : DB * Outcome :=
  if objects_exists (Booking_collides b) (bookings db)
  then escape cfg db0 db IntegrityError
  else
    let pk := new_pk (bookings db) in
    (with_bookings (<[pk := b]> (bookings db)) db, Created pk).

(** The filter of the overlap query:
    [property=property, is_cancelled=False, start_date__lt=end, end_date__gt=start]. *)
Definition overlaps (pid : nat) (start end_ : Z) (row : Booking.t) : bool :=
  bool_decide (Booking.property row = pid)
  && negb (Booking.is_cancelled row)
  && (Booking.start_date row <? end_)%Z
  && (Booking.end_date row >? start)%Z.

(** [BookingCreateView.perform_create] *)
Definition BookingCreateView_perform_create (cfg : Settings) (actor : nat)
    (user : User.t) (property : Property.t)
    (d : BookingSerializer.validated_data) (uuid : string) (db : DB) : DB * Outcome :=
  let pid := BookingSerializer.property d in
  let start := BookingSerializer.start_date d in
  let end_ := BookingSerializer.end_date d in
  if negb (Property.is_approved property)
     || negb (String.eqb (Property.property_type property) "shortlet")
  then (db, ValidationError "Property not available for short-let booking.")
  else if objects_exists (overlaps pid start end_) (bookings db)
  then (db, ValidationError "This date range is already booked.")
  else
    let days := (end_ - start)%Z in
    if (days <=? 0)%Z then (db, ValidationError "Invalid date range.")
    else
      let total_price := (inject_Z days * Property.price property)%Q in
      let tx_ref := "TobiTx-" +:+ uuid in
      if truthy (User.shortlet_credit user)
         && Qle_bool total_price (User.shortlet_credit user)
      then
        let user' :=
          User.set_shortlet_credit (User.shortlet_credit user - total_price)%Q user in
        let db1 := with_users (<[actor := user']> (users db)) db in
        Booking_create cfg db db1
          (Booking.mk actor pid start end_ total_price
             (BookingSerializer.is_cancelled d) true (Some tx_ref))
      else (db, ValidationError "Insufficient shortlet credit to book this property.").

(** [BookingCreateView]: permission, [serializer.is_valid] (the related
    property exists; the [UniqueTogetherValidator] the model serializer
    derives from [Booking.Meta.unique_together]), then [perform_create]. *)
Definition BookingCreateView (cfg : Settings) (actor : nat)
    (d : BookingSerializer.validated_data) (uuid : string) (db : DB) : DB * Outcome :=
  match users db !! actor with
  | None => (db, PermissionRefused)
  | Some user =>
    match properties db !! BookingSerializer.property d with
    | None => (db, ValidationError "Invalid pk - object does not exist.")
    | Some property =>
      if objects_exists
           (Booking_same_dates
              (Booking.mk actor (BookingSerializer.property d)
                 (BookingSerializer.start_date d) (BookingSerializer.end_date d)
                 0 false false None))
           (bookings db)
      then (db, ValidationError
                  "The fields property, start_date, end_date must make a unique set.")
      else BookingCreateView_perform_create cfg actor user property d uuid db
    end
  end.

(** ** Commission engine *)

Definition Commission_for (booking_id : nat) (row : Commission.t) : bool :=
  bool_decide (Commission.booking row = booking_id).

(** [Commission.objects.create(...)]: [booking] is a [OneToOneField]. *)
Definition Commission_create (cfg : Settings) (db0 db : DB) (c : Commission.t)
    (ok : Outcome) : DB * Outcome :=
  if objects_exists (Commission_for (Commission.booking c)) (commissions db)
  then escape cfg db0 db IntegrityError
  else (with_commissions (<[new_pk (commissions db) := c]> (commissions db)) db, ok).

(** [MarkBookingAsPaidView.post].  The module defines the class twice; the
    second definition, modelled here, is the one the name is bound to. *)
Definition MarkBookingAsPaidView (cfg : Settings) (actor booking_id : nat)
    (db : DB) : DB * Outcome :=
  if negb (IsAdminUser db actor) then (db, PermissionRefused)
  else
    match bookings db !! booking_id with
    | None => (db, Response 404 "Booking not found")
    | Some booking =>
      if Booking.is_paid booking then (db, Response 200 "Already paid ✅")
      else
        let db1 :=
          with_bookings (<[booking_id := Booking.set_is_paid true booking]> (bookings db)) db in
        match properties db1 !! Booking.property booking with
        | None => escape cfg db db1 RelatedObjectDoesNotExist
        | Some property =>
          let agent := Property.agent property in
          match users db1 !! agent with
          | None => escape cfg db db1 RelatedObjectDoesNotExist
          | Some _ =>
            let commission_amount := (Booking.total_price booking * (10 # 100))%Q in
            Commission_create cfg db db1
              (Commission.mk agent booking_id commission_amount false false)
              (Response 200 "Booking marked as paid 💰")
          end
        end
    end.

(** [RequestWithdrawalView.post] *)
Definition RequestWithdrawalView (actor commission_id : nat) (db : DB) : DB * Outcome :=
  if negb (IsAuthenticated db actor) then (db, PermissionRefused)
  else
    match commissions db !! commission_id with
    | None => (db, Response 404 "Commission not found or not yours")
    | Some commission =>
      if negb (bool_decide (Commission.agent commission = actor))
      then (db, Response 404 "Commission not found or not yours")
      else if Commission.is_withdrawn commission
      then (db, Response 400 "This commission has already been withdrawn")
      else if Commission.withdrawal_requested commission
      then (db, Response 400 "Withdrawal already requested")
      else
        (with_commissions
           (<[commission_id :=
                Commission.set_flags true (Commission.is_withdrawn commission) commission]>
              (commissions db)) db,
         Response 200 "Withdrawal request submitted ✅")
    end.

(** [ApproveWithdrawalView.post] *)
Definition ApproveWithdrawalView (actor commission_id : nat) (db : DB) : DB * Outcome :=
  if negb (IsAdminUser db actor) then (db, PermissionRefused)
  else
    match commissions db !! commission_id with
    | None => (db, Response 404 "No such pending withdrawal")
    | Some commission =>
      if Commission.withdrawal_requested commission
         && negb (Commission.is_withdrawn commission)
      then
        (with_commissions
           (<[commission_id := Commission.set_flags false true commission]>
              (commissions db)) db,
         Response 200 "Withdrawal approved ✅")
      else (db, Response 404 "No such pending withdrawal")
    end.

(** [RefundLog.objects.create(...)] *)
Definition RefundLog_create (r : RefundLog.t) (db : DB) : DB :=
  with_refund_logs (<[new_pk (refund_logs db) := r]> (refund_logs db)) db.

(** The tail shared by both cancellation views: flag the booking, and log
    a refund of the full price if it was paid. *)
Definition cancel_and_refund (cfg : Settings) (booking_id : nat) (booking : Booking.t)
    (refund_to : nat) (reason : string → string) (ok : Outcome) (db : DB) : DB * Outcome :=
  let db1 :=
    with_bookings
      (<[booking_id := Booking.set_is_cancelled true booking]> (bookings db)) db in
  if Booking.is_paid booking then
    match properties db1 !! Booking.property booking with
    | None => escape cfg db db1 RelatedObjectDoesNotExist
    | Some property =>
      (RefundLog_create
         (RefundLog.mk refund_to (Booking.total_price booking)
            (reason (Property.title property))) db1, ok)
    end
  else (db1, ok).

(** [CancelBookingView.post]; [today] is [timezone.now().date()]. *)
Definition CancelBookingView (cfg : Settings) (actor booking_id : nat) (today : Z)
    (db : DB) : DB * Outcome :=
  if negb (IsAuthenticated db actor) then (db, PermissionRefused)
  else
    match bookings db !! booking_id with
    | None => (db, Response 404 "Booking not found")
    | Some booking =>
      if negb (bool_decide (Booking.user booking = actor))
      then (db, Response 404 "Booking not found")
      else if Booking.is_cancelled booking
      then (db, Response 400 "This booking is already cancelled.")
      else if (Booking.start_date booking <=? today)%Z
      then (db, Response 400 "You cannot cancel a booking that has already started.")
      else
        cancel_and_refund cfg booking_id booking actor
          (λ title, "Cancelled short-let booking for '" +:+ title +:+ "'")
          (Response 200 "Booking cancelled and refund logged ✅") db
    end.

(** [AdminCancelBookingView.post] *)
Definition AdminCancelBookingView (cfg : Settings) (actor booking_id : nat)
    (db : DB) : DB * Outcome :=
  if negb (IsAdminUser db actor) then (db, PermissionRefused)
  else
    match bookings db !! booking_id with
    | None => (db, Response 404 "Booking not found")
    | Some booking =>
      if Booking.is_cancelled booking
      then (db, Response 400 "Booking is already cancelled.")
      else
        cancel_and_refund cfg booking_id booking (Booking.user booking)
          (λ title, "Admin cancelled booking for '" +:+ title +:+ "'")
          (Response 200 "Booking has been cancelled by admin.") db
    end.

(** ** Gift engine *)

Definition User_with_email (mail : string) (u : User.t) : bool :=
  String.eqb (User.email u) mail.

Module GiftSerializer.
(** The serializer keeps [sender], [recipient_user] and [status]
    read-only; [reassigned_to] and [converted_to_credit] stay writable. *)
Record validated_data := mk {
  property : nat;
  recipient_email : string;
  reassigned_to : option nat;
  converted_to_credit : bool
}.
End GiftSerializer.

(** [GiftCreateView]: permission, [serializer.is_valid] (the related rows
    exist), then [perform_create]; [now] is [timezone.now()]. *)
Definition GiftCreateView (actor : nat) (d : GiftSerializer.validated_data) (now : Z)
    (db : DB) : DB * Outcome :=
  if negb (IsAuthenticated db actor) then (db, PermissionRefused)
  else
    match properties db !! GiftSerializer.property d with
    | None => (db, ValidationError "Invalid pk - object does not exist.")
    | Some property =>
      if bool_decide (is_Some (GiftSerializer.reassigned_to d))
         && negb (bool_decide
                    (is_Some (GiftSerializer.reassigned_to d ≫= λ k, users db !! k)))
      then (db, ValidationError "Invalid pk - object does not exist.")
      else if negb (Property.is_approved property)
      then (db, ValidationError "Property must be approved to be gifted.")
      else
        let recipient :=
          objects_first (User_with_email (GiftSerializer.recipient_email d)) (users db) in
        let expires_at :=
          if String.eqb (Property.property_type property) "shortlet"
          then Some (now + timedelta_days 7)%Z else None in
        let pk := new_pk (gifts db) in
        (with_gifts
           (<[pk := Gift.mk actor (GiftSerializer.recipient_email d) recipient
                      (GiftSerializer.property d) "pending" expires_at
                      (GiftSerializer.reassigned_to d)
                      (GiftSerializer.converted_to_credit d)]> (gifts db)) db,
         Created pk)
    end.

(** [GiftDecisionView.post] *)
Definition GiftDecisionView (actor gift_id : nat) (action : string) (db : DB) : DB * Outcome :=
  if negb (IsAuthenticated db actor) then (db, PermissionRefused)
  else
    match gifts db !! gift_id with
    | None => (db, Response 400 "Gift not found or already handled")
    | Some gift =>
      if negb (bool_decide (Gift.recipient_user gift = Some actor))
         || negb (String.eqb (Gift.status gift) "pending")
      then (db, Response 400 "Gift not found or already handled")
      else if String.eqb action "accept"
      then (with_gifts (<[gift_id := Gift.set_status "accepted" gift]> (gifts db)) db,
            Response 200 ("Gift " +:+ action +:+ "ed."))
      else if String.eqb action "decline"
      then (with_gifts (<[gift_id := Gift.set_status "declined" gift]> (gifts db)) db,
            Response 200 ("Gift " +:+ action +:+ "ed."))
      else (db, Response 400 "Invalid action")
    end.

(** The queryset of [ExpireOldGiftsView]:
    [property__property_type='shortlet', expires_at__lt=now, status='pending']. *)
Definition expirable (db : DB) (now : Z) (g : Gift.t) : bool :=
  match properties db !! Gift.property g with
  | Some property => String.eqb (Property.property_type property) "shortlet"
  | None => false
  end
  && match Gift.expires_at g with
     | Some e => (e <? now)%Z
     | None => false
     end
  && String.eqb (Gift.status g) "pending".

(** The [for gift in gifts] loop.  Each row is the instance the queryset
    loaded; [gift.sender] and [gift.property] are fetched when touched. *)
Fixpoint expire_loop (cfg : Settings) (db0 : DB) (rows : list (nat * Gift.t))
    (expired converted : nat) (db : DB) : DB * Outcome :=
  match rows with
  | [] => (db, ExpiredGifts expired converted)
  | (pk, gift) :: rest =>
    let gift1 := Gift.set_status "expired" gift in
    let db1 := with_gifts (<[pk := gift1]> (gifts db)) db in
    let expired := S expired in
    if negb (bool_decide (is_Some (Gift.reassigned_to gift1)))
       && negb (Gift.converted_to_credit gift1)
    then
      match users db1 !! Gift.sender gift1 with
      | None => escape cfg db0 db1 RelatedObjectDoesNotExist
      | Some sender =>
        match User.getattr_decimal sender "wallet_balance" with
        | None => escape cfg db0 db1 AttributeError
        | Some balance =>
          match properties db1 !! Gift.property gift1 with
          | None => escape cfg db0 db1 RelatedObjectDoesNotExist
          | Some property =>
            let sender' :=
              User.setattr_decimal sender "wallet_balance"
                (balance + Property.price property)%Q in
            let gift2 := Gift.set_converted_to_credit true gift1 in
            let db2 := with_users (<[Gift.sender gift1 := sender']> (users db1)) db1 in
            let db3 := with_gifts (<[pk := gift2]> (gifts db2)) db2 in
            expire_loop cfg db0 rest expired (S converted) db3
          end
        end
      end
    else expire_loop cfg db0 rest expired converted db1
  end.

(** [ExpireOldGiftsView.post] *)
Definition ExpireOldGiftsView (cfg : Settings) (actor : nat) (now : Z) (db : DB) : DB * Outcome :=
  if negb (IsAdminUser db actor) then (db, PermissionRefused)
  else
    expire_loop cfg db
      (map_to_list (objects_filter (expirable db now) (gifts db))) 0 0 db.

(** [ReassignGiftView.post]; [new_email] is [request.data.get("new_email")].
    Without it the save is refused: [recipient_email] is not nullable. *)
Definition ReassignGiftView (cfg : Settings) (actor gift_id : nat)
    (new_email : option string) (db : DB) : DB * Outcome :=
  if negb (IsAuthenticated db actor) then (db, PermissionRefused)
  else
    match gifts db !! gift_id with
    | None => (db, Response 404 "Gift not found or cannot be reassigned")
    | Some gift =>
      if negb (bool_decide (Gift.sender gift = actor))
         || negb (String.eqb (Gift.status gift) "pending")
      then (db, Response 404 "Gift not found or cannot be reassigned")
      else if bool_decide (is_Some (Gift.reassigned_to gift))
      then (db, Response 400 "Gift has already been reassigned")
      else
        match new_email with
        | None => escape cfg db db IntegrityError
        | Some mail =>
          let new_recipient := objects_first (User_with_email mail) (users db) in
          (with_gifts (<[gift_id := Gift.set_recipient mail new_recipient gift]> (gifts db)) db,
           Response 200 "Gift successfully reassigned.")
        end
    end.

(** ** Investment engine *)

Module InvestmentSerializer.
Record validated_data := mk {
  property : nat;
  payment_plan : string
}.
End InvestmentSerializer.

Definition Investment_same_pair (i : Investment.t) (row : Investment.t) : bool :=
  bool_decide (Investment.investor row = Investment.investor i)
  && bool_decide (Investment.property row = Investment.property i).

Definition Investment_same_ref (r : option string) (row : Investment.t) : bool :=
  bool_decide (Investment.tx_ref row = r).

Definition Investment_collides (i : Investment.t) (row : Investment.t) : bool :=
  Investment_same_pair i row
  || (bool_decide (is_Some (Investment.tx_ref i))
      && Investment_same_ref (Investment.tx_ref i) row).

(** [serializer.save(...)] of an investment.  [investor] is read-only in
    the serializer, so [unique_together = ('investor', 'property')] is only
    enforced here, by the table, as is the uniqueness of [tx_ref]. *)
Definition Investment_create (cfg : Settings) (db0 db : DB) (i : Investment.t) : DB * Outcome :=
  if objects_exists (Investment_collides i) (investments db)
  then escape cfg db0 db IntegrityError
  else
    let pk := new_pk (investments db) in
    (with_investments (<[pk := i]> (investments db)) db, Created pk).

(** [CreateInvestmentView.perform_create]; [now] is [timezone.now()].
    [status] is not passed to [serializer.save], so the row takes the
    model's default, ['active']. *)
Definition CreateInvestmentView_perform_create (cfg : Settings) (actor : nat)
    (user : User.t) (property : Property.t)
    (d : InvestmentSerializer.validated_data) (uuid : string) (now : Z)
    (db : DB) : DB * Outcome :=
  let plan := InvestmentSerializer.payment_plan d in
  if negb (bool_decide (User.role user = User.INVESTOR))
  then (db, ValidationError "Only investors can invest in properties.")
  else if negb (Property.is_approved property)
  then (db, ValidationError "This property is not approved for investment.")
  else
    match Property.cost_price property with
    | None => (db, ValidationError "This property doesn't have a cost price set.")
    | Some total_price =>
      if negb (truthy total_price)
      then (db, ValidationError "This property doesn't have a cost price set.")
      else
        let expires := (now + timedelta_days 365)%Z in
        let chosen : option (Decimal * Decimal * User.t) :=
          if String.eqb plan "full" then
            Some (total_price, 0%Q, User.set_membership "Platinum" expires user)
          else if String.eqb plan "installment" then
            let amount_paid := (total_price * (60 # 100))%Q in
            Some (amount_paid, (total_price - amount_paid)%Q,
                  User.set_shortlet_credit 5000000
                    (User.set_membership "Gold" expires user))
          else None in
        match chosen with
        | None => (db, ValidationError "Invalid payment plan.")
        | Some (amount_paid, remaining, user') =>
          let tx_ref := "TobiInvest-" +:+ uuid in
          let db1 := with_users (<[actor := user']> (users db)) db in
          Investment_create cfg db db1
            (Investment.mk actor (InvestmentSerializer.property d) plan
               total_price amount_paid remaining "active" (Some tx_ref))
        end
    end.

(** [CreateInvestmentView]: permission, [serializer.is_valid] (the related
    property exists, the plan is one of the model's choices), then
    [perform_create]. *)
Definition CreateInvestmentView (cfg : Settings) (actor : nat)
    (d : InvestmentSerializer.validated_data) (uuid : string) (now : Z)
    (db : DB) : DB * Outcome :=
  match users db !! actor with
  | None => (db, PermissionRefused)
  | Some user =>
    match properties db !! InvestmentSerializer.property d with
    | None => (db, ValidationError "Invalid pk - object does not exist.")
    | Some property =>
      if String.eqb (InvestmentSerializer.payment_plan d) "full"
         || String.eqb (InvestmentSerializer.payment_plan d) "installment"
      then CreateInvestmentView_perform_create cfg actor user property d uuid now db
      else (db, ValidationError "Not a valid choice.")
    end
  end.

(** [TopUpInvestmentView.post]; [amount] is the parsed [Decimal]. *)
Definition TopUpInvestmentView (actor investment_id : nat) (amount : Decimal) (now : Z)
    (db : DB) : DB * Outcome :=
  match users db !! actor with
  | None => (db, PermissionRefused)
  | Some user =>
    if Qle_bool amount 0
    then (db, Response 400 "Top-up amount must be greater than 0")
    else
      match investments db !! investment_id with
      | None => (db, Response 404 "Investment not found or not yours")
      | Some investment =>
        if negb (bool_decide (Investment.investor investment = actor))
        then (db, Response 404 "Investment not found or not yours")
        else if String.eqb (Investment.status investment) "completed"
        then (db, Response 400 "This investment is already completed")
        else if negb (Qle_bool amount (Investment.remaining_balance investment))
        then (db, Response 400 "Amount exceeds remaining balance")
        else
          let amount_paid := (Investment.amount_paid investment + amount)%Q in
          let remaining_balance := (Investment.remaining_balance investment - amount)%Q in
          if Qeq_bool remaining_balance 0 then
            let user' :=
              User.set_shortlet_credit 0
                (User.set_membership "Platinum" (now + timedelta_days 365)%Z user) in
            let db1 := with_users (<[actor := user']> (users db)) db in
            (with_investments
               (<[investment_id :=
                    Investment.set_payment amount_paid remaining_balance "completed"
                      investment]> (investments db1)) db1,
             Response 200 "Top-up successful")
          else
            (with_investments
               (<[investment_id :=
                    Investment.set_payment amount_paid remaining_balance
                      (Investment.status investment) investment]> (investments db)) db,
             Response 200 "Top-up successful")
      end
  end.

(** ** Payment reconciliation *)

Module Webhook.
(** [request.data]: the event name and, under ["data"], the reference and
    the settlement status; each may be missing. *)
Record payload := mk {
  event : option string;
  tx_ref : option string;
  status : option string
}.
End Webhook.

(** The second half of [FlutterwaveWebhookView.post]: match an investment. *)
Definition webhook_match_investment (cfg : Settings) (tx_ref : option string) (now : Z)
    (db : DB) : DB * Outcome :=
  match objects_get (Investment_same_ref tx_ref) (investments db) with
  | ManyRows => escape cfg db db MultipleObjectsReturned
  | NoRow => (db, Response 404 "No matching record found")
  | OneRow pk investment =>
    if negb (Qle_bool (Investment.total_price investment) (Investment.amount_paid investment))
    then
      match users db !! Investment.investor investment with
      | None => escape cfg db db RelatedObjectDoesNotExist
      | Some investor =>
        let investor' :=
          User.set_is_verified true
            (User.set_membership "Platinum" (now + timedelta_days 365)%Z investor) in
        let db1 :=
          with_users (<[Investment.investor investment := investor']> (users db)) db in
        (with_investments
           (<[pk := Investment.set_payment (Investment.total_price investment) 0
                      "completed" investment]> (investments db1)) db1,
         Response 200 "Investment marked as fully paid ✅")
      end
    else (db, Response 404 "No matching record found")
  end.

(** [FlutterwaveWebhookView.post] (permission [AllowAny]).  A lookup by a
    missing reference is a lookup of the rows whose [tx_ref] is NULL. *)
Definition FlutterwaveWebhookView (cfg : Settings) (p : Webhook.payload) (now : Z)
    (db : DB) : DB * Outcome :=
  if negb (bool_decide (Webhook.event p = Some "charge.completed"))
  then (db, Response 200 "Ignored non-payment event")
  else if negb (bool_decide (Webhook.status p = Some "successful"))
  then (db, Response 200 "Payment not successful")
  else
    match objects_get (Booking_same_ref (Webhook.tx_ref p)) (bookings db) with
    | ManyRows => escape cfg db db MultipleObjectsReturned
    | NoRow => webhook_match_investment cfg (Webhook.tx_ref p) now db
    | OneRow pk booking =>
      if negb (Booking.is_paid booking)
      then (with_bookings (<[pk := Booking.set_is_paid true booking]> (bookings db)) db,
            Response 200 "Booking marked as paid ✅")
      else webhook_match_investment cfg (Webhook.tx_ref p) now db
    end.

(** ** Requests *)

(** The requests the transactional views answer, with what each reads from
    its environment (the clock, the random UUID). *)
Inductive Request :=
  | PostBookingCreate (actor : nat) (d : BookingSerializer.validated_data) (uuid : string)
  | PostMarkBookingAsPaid (actor booking_id : nat)
  | PostCancelBooking (actor booking_id : nat) (today : Z)
  | PostAdminCancelBooking (actor booking_id : nat)
  | PostRequestWithdrawal (actor commission_id : nat)
  | PostApproveWithdrawal (actor commission_id : nat)
  | PostGiftCreate (actor : nat) (d : GiftSerializer.validated_data) (now : Z)
  | PostGiftDecision (actor gift_id : nat) (action : string)
  | PostExpireOldGifts (actor : nat) (now : Z)
  | PostReassignGift (actor gift_id : nat) (new_email : option string)
  | PostCreateInvestment (actor : nat) (d : InvestmentSerializer.validated_data)
      (uuid : string) (now : Z)
  | PostTopUpInvestment (actor investment_id : nat) (amount : Decimal) (now : Z)
  | PostFlutterwaveWebhook (p : Webhook.payload) (now : Z).

Definition handle (cfg : Settings) (r : Request) (db : DB) : DB * Outcome :=
  match r with
  | PostBookingCreate actor d uuid => BookingCreateView cfg actor d uuid db
  | PostMarkBookingAsPaid actor k => MarkBookingAsPaidView cfg actor k db
  | PostCancelBooking actor k today => CancelBookingView cfg actor k today db
  | PostAdminCancelBooking actor k => AdminCancelBookingView cfg actor k db
  | PostRequestWithdrawal actor k => RequestWithdrawalView actor k db
  | PostApproveWithdrawal actor k => ApproveWithdrawalView actor k db
  | PostGiftCreate actor d now => GiftCreateView actor d now db
  | PostGiftDecision actor k action => GiftDecisionView actor k action db
  | PostExpireOldGifts actor now => ExpireOldGiftsView cfg actor now db
  | PostReassignGift actor k mail => ReassignGiftView cfg actor k mail db
  | PostCreateInvestment actor d uuid now => CreateInvestmentView cfg actor d uuid now db
  | PostTopUpInvestment actor k amount now => TopUpInvestmentView actor k amount now db
  | PostFlutterwaveWebhook p now => FlutterwaveWebhookView cfg p now db
  end.

(** The store after a sequence of requests, oldest first. *)
Definition run (cfg : Settings) (rs : list Request) (db : DB) : DB :=
  foldl (λ acc r, (handle cfg r acc).1) db rs.


(** * Invariants and change relations *)

(** Every way one request changes the [Booking] and [Commission] tables. *)
Inductive ledger_change (db db' : DB) : Prop :=
  | ledger_same :
      bookings db' = bookings db → commissions db' = commissions db →
      ledger_change db db'
  | ledger_paid k b :
      bookings db !! k = Some b → Booking.is_paid b = false →
      bookings db' = <[k := Booking.set_is_paid true b]> (bookings db) →
      commissions db' = commissions db →
      ledger_change db db'
  | ledger_commission k b c :
      bookings db !! k = Some b → Booking.is_paid b = false →
      bookings db' = <[k := Booking.set_is_paid true b]> (bookings db) →
      Commission.booking c = k →
      commissions db' = <[new_pk (commissions db) := c]> (commissions db) →
      ledger_change db db'
  | ledger_cancelled k b :
      bookings db !! k = Some b →
      bookings db' = <[k := Booking.set_is_cancelled true b]> (bookings db) →
      commissions db' = commissions db →
      ledger_change db db'
  | ledger_created b uuid :
      Booking.is_paid b = true →
      (Booking.start_date b < Booking.end_date b)%Z →
      Booking.tx_ref b = Some ("TobiTx-" +:+ uuid) →
      (∀ k row, bookings db !! k = Some row →
         overlaps (Booking.property b) (Booking.start_date b) (Booking.end_date b) row
         = false) →
      bookings db' = <[new_pk (bookings db) := b]> (bookings db) →
      commissions db' = commissions db →
      ledger_change db db'
  | ledger_flags k c requested withdrawn :
      commissions db !! k = Some c →
      bookings db' = bookings db →
      commissions db' = <[k := Commission.set_flags requested withdrawn c]> (commissions db) →
      ledger_change db db'.

(** Half-open overlap of the date ranges of two bookings. *)
Definition date_ranges_overlap (a b : Booking.t) : Prop :=
  (Booking.start_date a < Booking.end_date b)%Z
  ∧ (Booking.start_date b < Booking.end_date a)%Z.

(** No two active bookings of one listing overlap. *)
Definition no_double_booking (db : DB) : Prop :=
  ∀ i j a b,
    bookings db !! i = Some a → bookings db !! j = Some b → i ≠ j →
    Booking.property a = Booking.property b →
    Booking.is_cancelled a = false → Booking.is_cancelled b = false →
    ¬ date_ranges_overlap a b.

(** Every commission belongs to a stored booking (the foreign key). *)
Definition commissions_have_bookings (db : DB) : Prop :=
  map_Forall (λ _ c, is_Some (bookings db !! Commission.booking c)) (commissions db).

(** Booking [pk] is stored as paid and no commission refers to it. *)
Definition paid_without_commission (pk : nat) (db : DB) : Prop :=
  (∃ b, bookings db !! pk = Some b ∧ Booking.is_paid b = true)
  ∧ ∀ k c, commissions db !! k = Some c → Commission.booking c ≠ pk.

(** No transaction reference, set or missing, is shared by a booking and
    an investment. *)
Definition refs_disjoint (db : DB) : Prop :=
  map_Forall
    (λ _ b, map_Forall (λ _ i, Booking.tx_ref b ≠ Investment.tx_ref i) (investments db))
    (bookings db).

(** The books of an investment agree: what remains is the price less what
    was paid. *)
Definition balanced (i : Investment.t) : Prop :=
  (Investment.remaining_balance i == Investment.total_price i - Investment.amount_paid i)%Q.

Definition investments_balanced (db : DB) : Prop :=
  map_Forall (λ _ i, balanced i) (investments db).

(** References as the views issue them: bookings under ["TobiTx-"],
    investments under ["TobiInvest-"]. *)
Definition namespaced (db : DB) : Prop :=
  map_Forall (λ _ b, ∃ uuid, Booking.tx_ref b = Some ("TobiTx-" +:+ uuid)) (bookings db)
  ∧ map_Forall (λ _ i, ∃ uuid, Investment.tx_ref i = Some ("TobiInvest-" +:+ uuid))
      (investments db).

(** Every way one request changes the [Investment] table. *)
Inductive investments_change (t t' : gmap nat Investment.t) : Prop :=
  | investments_same : t' = t → investments_change t t'
  | investments_created i uuid :
      Investment.tx_ref i = Some ("TobiInvest-" +:+ uuid) →
      balanced i →
      t' = <[new_pk t := i]> t →
      investments_change t t'
  | investments_paid k i paid remaining st :
      t !! k = Some i →
      (balanced i → (remaining == Investment.total_price i - paid)%Q) →
      t' = <[k := Investment.set_payment paid remaining st i]> t →
      investments_change t t'.


(** * Sample stores *)

Module Sample.
Definition admin : User.t :=
  User.mk "admin@tobi.ng" User.ADMIN true None None 0 true.
Definition agent : User.t :=
  User.mk "agent@tobi.ng" User.AGENT true None None 0 false.
Definition guest : User.t :=
  User.mk "guest@tobi.ng" User.CUSTOMER false None None 30000 false.
Definition investor : User.t :=
  User.mk "investor@tobi.ng" User.INVESTOR false None None 0 false.

(** A short-let at 10,000 a night, one at 50,000, one listed for free, and
    an investment property costing 1,000,000; all approved. *)
Definition flat : Property.t :=
  Property.mk 2 "Flat" 10000 "shortlet" None true true.
Definition villa : Property.t :=
  Property.mk 2 "Villa" 50000 "shortlet" None true true.
Definition free_room : Property.t :=
  Property.mk 2 "Free room" 0 "shortlet" None true true.
Definition estate : Property.t :=
  Property.mk 2 "Estate" 0 "investment" (Some 1000000%Q) true true.

Definition traveller : User.t :=
  User.mk "traveller@tobi.ng" User.CUSTOMER false None None 100000 false.

Definition people : gmap nat User.t :=
  <[1 := admin]> (<[2 := agent]> (<[3 := guest]> (<[4 := investor]>
    (<[5 := traveller]> ∅)))).
Definition listings : gmap nat Property.t :=
  <[1 := flat]> (<[2 := villa]> (<[3 := free_room]> (<[4 := estate]> ∅))).

(** Users and listings only. *)
Definition store : DB := mkDB people listings ∅ ∅ ∅ ∅ ∅.

(** Three nights in the flat, days 100 to 103, and two in the free room. *)
Definition three_nights : BookingSerializer.validated_data :=
  BookingSerializer.mk 1 100 103 false.
Definition free_nights : BookingSerializer.validated_data :=
  BookingSerializer.mk 3 100 102 false.

(** The guest's stay, stored unpaid (as the admin site can store it). *)
Definition unpaid_stay : Booking.t :=
  Booking.mk 3 1 100 103 30000 false false (Some "TobiTx-stay").
Definition unpaid_store : DB := with_bookings (<[1 := unpaid_stay]> ∅) store.

Definition stay_settled : Webhook.payload :=
  Webhook.mk (Some "charge.completed") (Some "TobiTx-stay") (Some "successful").

(** A pending gift of the villa, made at time 0, expiring after 7 days. *)
Definition villa_gift : Gift.t :=
  Gift.mk 3 "friend@tobi.ng" None 2 "pending" (Some (timedelta_days 7)) None false.
Definition gift_store : DB := with_gifts (<[1 := villa_gift]> ∅) store.

Definition full_plan : InvestmentSerializer.validated_data :=
  InvestmentSerializer.mk 4 "full".
Definition installment_plan : InvestmentSerializer.validated_data :=
  InvestmentSerializer.mk 4 "installment".

(** The store after the investor took the estate on the installment plan
    at time 0. *)
Definition invested_store : DB :=
  (CreateInvestmentView django_defaults 4 installment_plan "first" 0 store).1.

(** The unpaid stay next to the investor's holding. *)
Definition mixed_store : DB := with_bookings (<[1 := unpaid_stay]> ∅) invested_store.

(** The store after the admin marked the stay paid: one commission. *)
Definition settled_store : DB := (MarkBookingAsPaidView django_defaults 1 1 unpaid_store).1.

(** Two nights in the flat starting the day the first stay ends. *)
Definition next_nights : BookingSerializer.validated_data :=
  BookingSerializer.mk 1 103 105 false.

(** Three more nights in the flat, days 110 to 113. *)
Definition later_nights : BookingSerializer.validated_data :=
  BookingSerializer.mk 1 110 113 false.

(** What may follow a booking: the admin marks it paid, the provider
    reports a payment for its reference, the guest cancels it. *)
Definition afterwards : list Request :=
  [ PostMarkBookingAsPaid 1 0;
    PostFlutterwaveWebhook
      (Webhook.mk (Some "charge.completed") (Some "TobiTx-u") (Some "successful")) 50;
    PostCancelBooking 3 0 60 ].
End Sample.

(** * Further views of [core/views.py], [core/permissions.py] and [core/utils.py] *)

(** ** The agent's wallet *)

(** The filter of the wallet: [agent=user, is_withdrawn=False]. *)
Definition in_wallet (agent_id : nat) (c : Commission.t) : bool :=
  bool_decide (Commission.agent c = agent_id) && negb (Commission.is_withdrawn c).

(** Python's [sum]: a left fold of [+] from [0]. *)
Definition py_sum (amounts : list Decimal) : Decimal := foldl Qplus 0%Q amounts.

Definition wallet_balance (agent_id : nat) (db : DB) : Decimal :=
  py_sum (Commission.amount <$>
            (map_to_list (objects_filter (in_wallet agent_id) (commissions db))).*2).

(** [AgentWalletView.get]: the refusal, or the ["wallet_balance"] it reports. *)
Definition AgentWalletView (actor : nat) (db : DB) : Outcome + Decimal :=
  match users db !! actor with
  | None => inl PermissionRefused
  | Some user =>
    if negb (bool_decide (User.role user = User.AGENT))
    then inl (Response 403 "Only agents have wallets")
    else inr (wallet_balance actor db)
  end.

(** ** Membership ([core/utils.py]) *)

(** A [datetime.date] or a [datetime.datetime]. *)
Inductive PyTemporal :=
  | a_date (day : Z)
  | a_datetime (instant : Z).

(** [a >= b]: ordered within one kind; across kinds Python raises
    [TypeError] ("can't compare datetime.datetime to datetime.date"),
    [None] here. *)
Definition temporal_ge (a b : PyTemporal) : option bool :=
  match a, b with
  | a_date x, a_date y => Some (y <=? x)%Z
  | a_datetime x, a_datetime y => Some (y <=? x)%Z
  | _, _ => None
  end.

(** [has_active_membership(user)]; [today] is [date.today()].  The tier is
    falsy when unset or empty; [membership_expires_at] is a
    [DateTimeField], so what is compared with the date is a datetime. *)
Definition has_active_membership (user : User.t) (today : Z) : option bool :=
  if negb (bool_decide (is_Some (User.membership_tier user))
           && negb (bool_decide (User.membership_tier user = Some EmptyString)))
     || negb (bool_decide (is_Some (User.membership_expires_at user)))
  then Some false
  else
    match User.membership_expires_at user with
    | Some expires => temporal_ge (a_datetime expires) (a_date today)
    | None => Some false
    end.

(** ** Roles *)

Module Account.
(** A user row with the two history flags of the model that the
    transactional views never read. *)
Record t := mk {
  user : User.t;
  was_verified_as_agent : bool;
  was_verified_as_investor : bool
}.
End Account.

Definition User_set_role (r : User.Role) (u : User.t) : User.t :=
  User.mk (User.email u) r (User.is_verified u) (User.membership_tier u)
    (User.membership_expires_at u) (User.shortlet_credit u) (User.is_staff u).

Definition User_set_is_staff (v : bool) (u : User.t) : User.t :=
  User.mk (User.email u) (User.role u) (User.is_verified u) (User.membership_tier u)
    (User.membership_expires_at u) (User.shortlet_credit u) v.

(** The value of a role as the request spells it. *)
Definition Role_value (r : User.Role) : string :=
  match r with
  | User.CUSTOMER => "CUSTOMER"
  | User.AGENT => "AGENT"
  | User.INVESTOR => "INVESTOR"
  | User.ADMIN => "ADMIN"
  end.

(** [new_role.lower()] for a role. *)
Definition Role_lower (r : User.Role) : string :=
  match r with
  | User.CUSTOMER => "customer"
  | User.AGENT => "agent"
  | User.INVESTOR => "investor"
  | User.ADMIN => "admin"
  end.

(** [new_role in valid_roles], with
    [valid_roles = [CUSTOMER, AGENT, INVESTOR]]. *)
Definition valid_role (new_role : option string) : option User.Role :=
  match new_role with
  | Some s =>
    if String.eqb s (Role_value User.CUSTOMER) then Some User.CUSTOMER
    else if String.eqb s (Role_value User.AGENT) then Some User.AGENT
    else if String.eqb s (Role_value User.INVESTOR) then Some User.INVESTOR
    else None
  | None => None
  end.

(** [SwitchUserRoleView.post] on the account of the authenticated user;
    [new_role] is [request.data.get('role')]. *)
Definition SwitchUserRoleView (new_role : option string) (a : Account.t)
    : Account.t * Outcome :=
  match valid_role new_role with
  | None => (a, Response 400 "Invalid role.")
  | Some role =>
    let user := Account.user a in
    let old_role := User.role user in
    if bool_decide (old_role = role)
    then (a, Response 200 ("You're already a " +:+ Role_lower role +:+ "."))
    else
      let agent_flag :=
        if bool_decide (old_role = User.AGENT) && User.is_verified user
        then true else Account.was_verified_as_agent a in
      let investor_flag :=
        if bool_decide (old_role = User.INVESTOR) && User.is_verified user
        then true else Account.was_verified_as_investor a in
      (Account.mk (User.set_is_verified false (User_set_role role user))
         agent_flag investor_flag,
       Response 200 ("Your role has been changed to " +:+ Role_value role
                     +:+ ". Please re-verify if required."))
  end.

(** The account after a sequence of switch requests, oldest first. *)
Definition switch_roles (requests : list (option string)) (a : Account.t) : Account.t :=
  foldl (λ acc r, (SwitchUserRoleView r acc).1) a requests.

(** [AssignAdminRoleView.post].  The message of the promotion starts with
    the target's full name, which [User.t] does not carry; it is given
    from there on. *)
Definition AssignAdminRoleView (actor user_id : nat) (db : DB) : DB * Outcome :=
  if negb (IsAdminUser db actor) then (db, PermissionRefused)
  else
    match users db !! user_id with
    | None => (db, Response 404 "User not found")
    | Some target_user =>
      if bool_decide (User.role target_user = User.ADMIN) && User.is_staff target_user
      then (db, Response 200 "User is already an admin.")
      else
        (with_users
           (<[user_id :=
                User_set_is_staff true
                  (User.set_is_verified true (User_set_role User.ADMIN target_user))]>
              (users db)) db,
         Response 200 " has been promoted to Admin ✅")
    end.

(** ** Listings *)

Module PropertySerializer.
(** The writable fields; [agent] and [is_approved] are read-only. *)
Record validated_data := mk {
  title : string;
  price : Decimal;
  property_type : string;
  cost_price : option Decimal;
  is_available : bool
}.
End PropertySerializer.

Definition Property_set_is_approved (v : bool) (p : Property.t) : Property.t :=
  Property.mk (Property.agent p) (Property.title p) (Property.price p)
    (Property.property_type p) (Property.cost_price p) (Property.is_available p) v.

Definition with_properties (v : gmap nat Property.t) (db : DB) : DB :=
  mkDB (users db) v (bookings db) (commissions db) (gifts db)
       (investments db) (refund_logs db).

(** [IsAgentOrReadOnly.has_permission] for a writing method.  The
    condition reads [(user and authenticated and role == AGENT) or
    role == ADMIN or is_staff]: for an anonymous user the first operand is
    false and the second reads [role], which [AnonymousUser] lacks
    ([None] here, an [AttributeError]). *)
Definition IsAgentOrReadOnly (db : DB) (actor : nat) : option bool :=
  match users db !! actor with
  | None => None
  | Some u =>
    Some (bool_decide (User.role u = User.AGENT)
          || bool_decide (User.role u = User.ADMIN)
          || User.is_staff u)
  end.

(** [IsAgentOwnerOrAdmin.has_object_permission] for a writing method. *)
Definition IsAgentOwnerOrAdmin (db : DB) (actor : nat) (obj : Property.t) : bool :=
  match users db !! actor with
  | None => false
  | Some u =>
    bool_decide (Property.agent obj = actor)
    || bool_decide (User.role u = User.ADMIN)
    || User.is_staff u
  end.

(** [PropertyViewSet.get_queryset]: staff and admins see every listing,
    everyone else the approved ones. *)
Definition PropertyViewSet_get_queryset (db : DB) (actor : nat) (p : Property.t) : bool :=
  match users db !! actor with
  | Some u =>
    if User.is_staff u || bool_decide (User.role u = User.ADMIN)
    then true else Property.is_approved p
  | None => Property.is_approved p
  end.

(** [get_object()]: the listing, if the actor's queryset holds it. *)
Definition PropertyViewSet_get_object (db : DB) (actor pk : nat) : option Property.t :=
  match properties db !! pk with
  | Some p => if PropertyViewSet_get_queryset db actor p then Some p else None
  | None => None
  end.

(** The property types of the model's choices. *)
Definition valid_property_type (s : string) : bool :=
  String.eqb s "shortlet" || String.eqb s "investment" || String.eqb s "sale".

(** The detail of DRF's [ChoiceField] for an input that is no choice:
    the input between double quotes, then [is not a valid choice.] *)
Definition invalid_choice (input : string) : string :=
  String (Ascii.ascii_of_nat 34) input
  +:+ String (Ascii.ascii_of_nat 34) " is not a valid choice.".

(** [PropertyViewSet.create] with [perform_create]: the listing is stored
    for the acting agent, unapproved (the model's default). *)
Definition PropertyViewSet_create (actor : nat) (d : PropertySerializer.validated_data)
    (db : DB) : DB * Outcome :=
  match IsAgentOrReadOnly db actor with
  | None => (db, Raised AttributeError)
  | Some false => (db, PermissionRefused)
  | Some true =>
    if negb (valid_property_type (PropertySerializer.property_type d))
    then (db, ValidationError (invalid_choice (PropertySerializer.property_type d)))
    else
      let pk := new_pk (properties db) in
      (with_properties
         (<[pk := Property.mk actor (PropertySerializer.title d)
                    (PropertySerializer.price d) (PropertySerializer.property_type d)
                    (PropertySerializer.cost_price d)
                    (PropertySerializer.is_available d) false]> (properties db)) db,
       Created pk)
  end.

(** [PropertyViewSet.update] with [perform_update]: [get_permissions]
    answers [IsAgentOwnerOrAdmin] alone, whose request-level check always
    passes; the saved listing loses its approval.  A listing outside the
    actor's queryset is answered 404, with the detail of DRF's
    [NotFound]; the body of the 200, the serialized listing, is left
    empty. *)
Definition PropertyViewSet_update (actor pk : nat) (d : PropertySerializer.validated_data)
    (db : DB) : DB * Outcome :=
  match PropertyViewSet_get_object db actor pk with
  | None => (db, Response 404 "Not found.")
  | Some obj =>
    if negb (IsAgentOwnerOrAdmin db actor obj) then (db, PermissionRefused)
    else if negb (valid_property_type (PropertySerializer.property_type d))
    then (db, ValidationError (invalid_choice (PropertySerializer.property_type d)))
    else
      (with_properties
         (<[pk := Property.mk (Property.agent obj) (PropertySerializer.title d)
                    (PropertySerializer.price d) (PropertySerializer.property_type d)
                    (PropertySerializer.cost_price d)
                    (PropertySerializer.is_available d) false]> (properties db)) db,
       Response 200 EmptyString)
  end.

(** [property.delete()]: the rows that point at the listing go with it
    ([on_delete=CASCADE]): its bookings and their commissions, its gifts
    and its investments. *)
Definition Property_delete (pk : nat) (db : DB) : DB :=
  let kept_bookings :=
    filter (λ kv, Booking.property kv.2 ≠ pk) (bookings db) in
  mkDB (users db)
       (delete pk (properties db))
       kept_bookings
       (filter (λ kv, is_Some (kept_bookings !! Commission.booking kv.2)) (commissions db))
       (filter (λ kv, Gift.property kv.2 ≠ pk) (gifts db))
       (filter (λ kv, Investment.property kv.2 ≠ pk) (investments db))
       (refund_logs db).

(** [PropertyViewSet.destroy] *)
Definition PropertyViewSet_destroy (actor pk : nat) (db : DB) : DB * Outcome :=
  match PropertyViewSet_get_object db actor pk with
  | None => (db, Response 404 "Not found.")
  | Some obj =>
    if negb (IsAgentOwnerOrAdmin db actor obj) then (db, PermissionRefused)
    else (Property_delete pk db, Response 204 EmptyString)
  end.

(** The [approve] and [reject] actions.  Their decorators name
    [IsAdminUser], but the view set overrides [get_permissions], which
    answers [IsAgentOrReadOnly] for every action other than update and
    destroy. *)
Definition PropertyViewSet_approve (actor pk : nat) (db : DB) : DB * Outcome :=
  match IsAgentOrReadOnly db actor with
  | None => (db, Raised AttributeError)
  | Some false => (db, PermissionRefused)
  | Some true =>
    match PropertyViewSet_get_object db actor pk with
    | None => (db, Response 404 "Not found.")
    | Some property =>
      (with_properties (<[pk := Property_set_is_approved true property]> (properties db)) db,
       Response 200 "property approved ✅")
    end
  end.

Definition PropertyViewSet_reject (actor pk : nat) (db : DB) : DB * Outcome :=
  match IsAgentOrReadOnly db actor with
  | None => (db, Raised AttributeError)
  | Some false => (db, PermissionRefused)
  | Some true =>
    match PropertyViewSet_get_object db actor pk with
    | None => (db, Response 404 "Not found.")
    | Some property =>
      (Property_delete pk db, Response 200 "property rejected and deleted ❌")
    end
  end.

(** ** Predicates of the further properties *)


(** The test of the expiry loop's conversion branch:
    [not gift.reassigned_to and not gift.converted_to_credit]. *)
Definition needs_conversion (g : Gift.t) : bool :=
  negb (bool_decide (is_Some (Gift.reassigned_to g)))
  && negb (Gift.converted_to_credit g).



(** No account holds a negative shortlet credit. *)
Definition credits_nonnegative (db : DB) : Prop :=
  map_Forall (λ _ u, (0 <= User.shortlet_credit u)%Q) (users db).

(** * Further sample stores *)

Module Cases.
(** A second agent, who owns no listing. *)
Definition rival : User.t :=
  User.mk "rival@tobi.ng" User.AGENT true None None 0 false.

Definition agency : DB := with_users (<[6 := rival]> (users Sample.store)) Sample.store.

(** The sample stay, paid and with its commission, then cancelled by the
    guest on day 50. *)
Definition cancelled_store : DB :=
  (CancelBookingView django_defaults 3 1 50 Sample.settled_store).1.

(** The commission of the sample stay, requested and approved. *)
Definition withdrawn_store : DB :=
  (ApproveWithdrawalView 1 0
     (RequestWithdrawalView 2 0 Sample.settled_store).1).1.

Definition reassigned_store : DB :=
  (ReassignGiftView django_defaults 3 1 (Some "investor@tobi.ng") Sample.gift_store).1.

(** A gift of the villa to a friend. *)
Definition villa_for_friend : GiftSerializer.validated_data :=
  GiftSerializer.mk 2 "friend@tobi.ng" None false.

(** The estate bought outright at time 0. *)
Definition owned_store : DB :=
  (CreateInvestmentView django_defaults 4 Sample.full_plan "deed" 0 Sample.store).1.

(** Later requests about the estate: a top-up and a settlement notice. *)
Definition estate_requests : list Request :=
  [ PostTopUpInvestment 4 0 100 10;
    PostFlutterwaveWebhook
      (Webhook.mk (Some "charge.completed") (Some "TobiInvest-deed")
         (Some "successful")) 20 ].

(** An installment purchase followed by a booking and a top-up. *)
Definition busy_day : list Request :=
  [ PostCreateInvestment 4 Sample.installment_plan "first" 0;
    PostBookingCreate 4 Sample.three_nights "stay";
    PostTopUpInvestment 4 0 150000 10 ].

(** The flat, repriced. *)
Definition repriced_flat : PropertySerializer.validated_data :=
  PropertySerializer.mk "Flat" 12000 "shortlet" None true.

Definition a_guest : Account.t := Account.mk Sample.guest false false.
End Cases.

(** ** Agent verification *)

Module AgentVerification.
(** The four document URLs are left out: the serializer validates them
    and no view reads them. *)
Record t := mk {
  agent : nat;
  is_verified : bool;
  rejection_reason : option string;
  was_rejected : bool
}.

Definition set_is_verified (v : bool) (x : t) : t :=
  mk (agent x) v (rejection_reason x) (was_rejected x).

Definition set_rejection (reason : option string) (x : t) : t :=
  mk (agent x) (is_verified x) reason true.
End AgentVerification.

(** The store together with the table of verifications. *)
Record VerificationDB := mkVerificationDB {
  tables : DB;
  agent_verifications : gmap nat AgentVerification.t
}.

Definition AgentVerification_of (agent_id : nat) (v : AgentVerification.t) : bool :=
  bool_decide (AgentVerification.agent v = agent_id).

Definition save_agent (agent_id : nat) (agent : User.t) (s : VerificationDB)
    : VerificationDB :=
  mkVerificationDB (with_users (<[agent_id := agent]> (users (tables s))) (tables s))
    (agent_verifications s).

Definition save_verification (k : nat) (v : AgentVerification.t) (s : VerificationDB)
    : VerificationDB :=
  mkVerificationDB (tables s) (<[k := v]> (agent_verifications s)).

(** [AgentVerificationUploadView.perform_create], for documents the
    serializer accepts. *)
Definition AgentVerificationUploadView (actor : nat) (s : VerificationDB)
    : VerificationDB * Outcome :=
  match users (tables s) !! actor with
  | None => (s, PermissionRefused)
  | Some user =>
    if negb (bool_decide (User.role user = User.AGENT))
    then (s, ValidationError "Only agents can submit verification documents.")
    else if objects_exists (AgentVerification_of actor) (agent_verifications s)
    then (s, ValidationError "You’ve already submitted your documents.")
    else
      let pk := new_pk (agent_verifications s) in
      (save_verification pk (AgentVerification.mk actor false None false) s, Created pk)
  end.

(** [AgentVerificationApprovalView.post].  The message of the answer
    starts with the agent's full name, which [User.t] does not carry; it
    is given from there on.  [verification.agent] is a foreign key, so the
    row is there in a consistent store; the lookup raises where it is not,
    after the verification was saved. *)
Definition AgentVerificationApprovalView (cfg : Settings) (actor verification_id : nat)
    (s : VerificationDB) : VerificationDB * Outcome :=
  if negb (IsAdminUser (tables s) actor) then (s, PermissionRefused)
  else
    match agent_verifications s !! verification_id with
    | None => (s, Response 404 "Verification not found")
    | Some verification =>
      let s1 :=
        save_verification verification_id
          (AgentVerification.set_is_verified true verification) s in
      let agent_id := AgentVerification.agent verification in
      match users (tables s1) !! agent_id with
      | None => (if ATOMIC_REQUESTS cfg then s else s1, Raised RelatedObjectDoesNotExist)
      | Some agent =>
        (save_agent agent_id (User.set_is_verified true agent) s1,
         Response 200 " is now a verified agent ✅")
      end
    end.

(** [RejectAgentVerificationView.post]; [reason] is
    [request.data.get("reason")], falsy when absent or empty. *)
Definition RejectAgentVerificationView (cfg : Settings) (actor verification_id : nat)
    (reason : option string) (s : VerificationDB) : VerificationDB * Outcome :=
  if negb (IsAdminUser (tables s) actor) then (s, PermissionRefused)
  else
    match reason with
    | None | Some EmptyString => (s, Response 400 "A rejection reason is required")
    | Some _ =>
      match agent_verifications s !! verification_id with
      | None => (s, Response 404 "Verification not found")
      | Some verification =>
        let s1 :=
          save_verification verification_id
            (AgentVerification.set_rejection reason verification) s in
        let agent_id := AgentVerification.agent verification in
        match users (tables s1) !! agent_id with
        | None => (if ATOMIC_REQUESTS cfg then s else s1, Raised RelatedObjectDoesNotExist)
        | Some agent =>
          (save_agent agent_id (User.set_is_verified false agent) s1,
           Response 200 "'s verification was rejected ❌")
        end
      end
    end.

(** The requests about verifications. *)
Inductive VerificationRequest :=
  | PostAgentVerificationUpload (actor : nat)
  | PostAgentVerificationApproval (actor verification_id : nat)
  | PostRejectAgentVerification (actor verification_id : nat) (reason : option string).

Definition handle_verification (cfg : Settings) (r : VerificationRequest)
    (s : VerificationDB) : VerificationDB * Outcome :=
  match r with
  | PostAgentVerificationUpload actor => AgentVerificationUploadView actor s
  | PostAgentVerificationApproval actor k => AgentVerificationApprovalView cfg actor k s
  | PostRejectAgentVerification actor k reason =>
    RejectAgentVerificationView cfg actor k reason s
  end.

Definition run_verifications (cfg : Settings) (rs : list VerificationRequest)
    (s : VerificationDB) : VerificationDB :=
  foldl (λ acc r, (handle_verification cfg r acc).1) s rs.

(** ** The dashboard *)

(** What a view's [get] gives: a refusal, an uncaught [TypeError], or its
    data. *)
Inductive Answer (A : Type) :=
  | Refused
  | TypeError
  | Data (a : A).
Arguments Refused {A}.
Arguments TypeError {A}.
Arguments Data {A} a.

Module Dashboard.
(** The keys of the role's branch that are computed from the tables of
    the store.  Left out are the keys read from reviews, verifications
    and ROI payments: [average_rating], [total_earnings], [roi_logs],
    [pending_verifications], [unapproved_reviews]. *)
Inductive RoleData :=
  | CustomerData (bookings : nat)
  | AgentData (total_properties : nat) (total_commission : Decimal)
      (pending_withdrawals : nat)
  | InvestorData (total_investments : nat)
      (remaining_balance_total shortlet_credit total_invested : Decimal)
  | AdminData (unapproved_properties pending_withdrawals : nat).

(** The three membership keys, present when the tier is truthy. *)
Record Membership := mkMembership {
  membership_tier : string;
  membership_expires_at : option Z;
  membership_active : bool
}.

Record t := mk {
  role_data : RoleData;
  membership : option Membership
}.
End Dashboard.

Definition Booking_of_user (user_id : nat) (b : Booking.t) : bool :=
  bool_decide (Booking.user b = user_id).
Definition Property_of_agent (agent_id : nat) (p : Property.t) : bool :=
  bool_decide (Property.agent p = agent_id).
Definition Commission_of_agent (agent_id : nat) (c : Commission.t) : bool :=
  bool_decide (Commission.agent c = agent_id).
Definition Investment_of_investor (investor_id : nat) (i : Investment.t) : bool :=
  bool_decide (Investment.investor i = investor_id).

(** [withdrawal_requested=True, is_withdrawn=False] *)
Definition pending_withdrawal (c : Commission.t) : bool :=
  Commission.withdrawal_requested c && negb (Commission.is_withdrawn c).

(** [sum(row.field for row in table)] *)
Definition sum_of {A} (field : A → Decimal) (table : gmap nat A) : Decimal :=
  py_sum (field <$> (map_to_list table).*2).

Definition Dashboard_role_data (actor : nat) (user : User.t) (db : DB)
    : Dashboard.RoleData :=
  match User.role user with
  | User.CUSTOMER =>
    Dashboard.CustomerData (size (objects_filter (Booking_of_user actor) (bookings db)))
  | User.AGENT =>
    let commissions := objects_filter (Commission_of_agent actor) (commissions db) in
    Dashboard.AgentData
      (size (objects_filter (Property_of_agent actor) (properties db)))
      (sum_of Commission.amount commissions)
      (size (objects_filter pending_withdrawal commissions))
  | User.INVESTOR =>
    let investments := objects_filter (Investment_of_investor actor) (investments db) in
    Dashboard.InvestorData
      (size investments)
      (sum_of Investment.remaining_balance investments)
      (User.shortlet_credit user)
      (sum_of Investment.total_price investments)
  | User.ADMIN =>
    Dashboard.AdminData
      (size (objects_filter (λ p, negb (Property.is_approved p)) (properties db)))
      (size (objects_filter pending_withdrawal (commissions db)))
  end.

(** [DashboardView.get]; [today] is the [date.today()] that
    [has_active_membership] reads. *)
Definition DashboardView (actor : nat) (today : Z) (db : DB) : Answer Dashboard.t :=
  match users db !! actor with
  | None => Refused
  | Some user =>
    let data := Dashboard_role_data actor user db in
    match User.membership_tier user with
    | None | Some EmptyString => Data (Dashboard.mk data None)
    | Some tier =>
      match has_active_membership user today with
      | None => TypeError
      | Some active =>
        Data (Dashboard.mk data
                (Some (Dashboard.mkMembership tier (User.membership_expires_at user)
                         active)))
      end
    end
  end.

(** ** Refund logs *)

(** [RefundLogView.get_queryset], for an authenticated user. *)
Definition RefundLogView_get_queryset (actor : nat) (db : DB)
    : option (gmap nat RefundLog.t) :=
  match users db !! actor with
  | None => None
  | Some user =>
    if User.is_staff user || bool_decide (User.role user = User.ADMIN)
    then Some (refund_logs db)
    else Some (objects_filter (λ log, bool_decide (RefundLog.user log = actor))
                 (refund_logs db))
  end.

(** A user who holds a membership with an expiry date. *)
Definition is_member (u : User.t) : Prop :=
  (∃ tier, User.membership_tier u = Some tier ∧ tier ≠ EmptyString)
  ∧ is_Some (User.membership_expires_at u).

(** * Sample verification records *)

Module Desk.
(** The agency with no documents on file, and with the rival's. *)
Definition empty_desk : VerificationDB := mkVerificationDB Cases.agency ∅.
Definition filed : VerificationDB := (AgentVerificationUploadView 6 empty_desk).1.

Definition decisions : list VerificationRequest :=
  [ PostRejectAgentVerification 1 0 (Some "blurred scan");
    PostAgentVerificationUpload 6;
    PostAgentVerificationApproval 1 0 ].
End Desk.


(** * Properties *)

(** ** The object manager *)

Section objects.
Context {A : Type}.
Implicit Types (P : A → bool) (t : gmap nat A).

Lemma objects_exists_true P t :
  objects_exists P t = true ↔ ∃ k row, t !! k = Some row ∧ P row = true.
Proof. unfold objects_exists. by rewrite bool_decide_eq_true. Qed.

Lemma objects_exists_false P t :
  objects_exists P t = false ↔ ∀ k row, t !! k = Some row → P row = false.
Proof.
  unfold objects_exists. rewrite bool_decide_eq_false. split.
  - intros Hno k row Hk. destruct (P row) eqn:HP; [|done].
    destruct Hno. by exists k, row.
  - intros Hall (k & row & Hk & HP). specialize (Hall k row Hk). congruence.
Qed.

Lemma new_pk_fresh t : t !! new_pk t = None.
Proof. apply not_elem_of_dom, is_fresh. Qed.

Lemma new_pk_ne t k row : t !! k = Some row → k ≠ new_pk t.
Proof. intros Hk ->. by rewrite new_pk_fresh in Hk. Qed.

Lemma objects_filter_lookup P t k row :
  objects_filter P t !! k = Some row ↔ t !! k = Some row ∧ P row = true.
Proof. unfold objects_filter. by rewrite map_lookup_filter_Some. Qed.

Lemma objects_get_NoRow P t :
  objects_get P t = NoRow ↔ objects_filter P t = ∅.
Proof.
  unfold objects_get. rewrite <-map_to_list_empty_iff.
  destruct (map_to_list (objects_filter P t)) as [|[k row] [|]]; naive_solver.
Qed.

Lemma objects_get_OneRow P t k row :
  objects_get P t = OneRow k row ↔ objects_filter P t = {[k := row]}.
Proof.
  unfold objects_get. split.
  - intros Hget. rewrite <-(list_to_map_to_list (objects_filter P t)).
    destruct (map_to_list (objects_filter P t)) as [|[k' row'] [|]];
      simplify_eq/=. by rewrite insert_empty.
  - intros ->. by rewrite map_to_list_singleton.
Qed.

Lemma objects_get_none P t :
  (∀ k row, t !! k = Some row → P row = false) → objects_get P t = NoRow.
Proof.
  intros Hall. apply objects_get_NoRow, map_empty. intros k.
  apply map_lookup_filter_None. destruct (t !! k) as [row|] eqn:Hk; [right|by left].
  intros x [= <-]. simpl. rewrite (Hall k row Hk). done.
Qed.

Lemma objects_get_OneRow_lookup P t k row :
  objects_get P t = OneRow k row → t !! k = Some row ∧ P row = true.
Proof.
  rewrite objects_get_OneRow. intros Hf. apply objects_filter_lookup.
  rewrite Hf. apply lookup_singleton_eq.
Qed.

(** Rewriting the row a lookup found, keeping it a match, leaves it the
    one row the lookup finds. *)
Lemma objects_get_update P t k row row' :
  objects_get P t = OneRow k row → P row' = true →
  objects_get P (<[k := row']> t) = OneRow k row'.
Proof.
  rewrite !objects_get_OneRow. unfold objects_filter. intros Hf HP.
  rewrite map_filter_insert_True by done. rewrite Hf.
  apply insert_singleton_eq.
Qed.

End objects.

(** ** What a request can do to the bookings and commissions *)

(** Case analysis on every test a view makes. *)
Ltac view_cases :=
  repeat first
    [ progress (unfold escape in *; simpl in *)
    | case_match ].

Lemma expire_loop_ledger cfg db0 rows expired converted db :
  bookings db = bookings db0 → commissions db = commissions db0 →
  let db' := (expire_loop cfg db0 rows expired converted db).1 in
  bookings db' = bookings db0 ∧ commissions db' = commissions db0.
Proof.
  revert expired converted db.
  induction rows as [|[pk gift] rest IH]; intros expired converted db Hb Hc; simpl.
  - done.
  - repeat case_match; unfold escape; simpl;
      try (destruct (ATOMIC_REQUESTS cfg); done);
      apply IH; done.
Qed.

Lemma handle_ledger_change cfg r db : ledger_change db (handle cfg r db).1.
Proof.
  destruct r; simpl.
  - (* BookingCreateView *)
    unfold BookingCreateView, BookingCreateView_perform_create, Booking_create.
    view_cases; try (by apply ledger_same).
    eapply ledger_created with (uuid := uuid); cycle 4;
      [reflexivity|reflexivity|..]; simpl; try done.
    + lia.
    + by apply objects_exists_false.
  - (* MarkBookingAsPaidView *)
    unfold MarkBookingAsPaidView, Commission_create.
    view_cases; try (by apply ledger_same); try (by eapply ledger_paid).
    eapply ledger_commission; [| |reflexivity| |reflexivity]; done.
  - (* CancelBookingView *)
    unfold CancelBookingView, cancel_and_refund, RefundLog_create.
    view_cases; try (by apply ledger_same); by eapply ledger_cancelled.
  - (* AdminCancelBookingView *)
    unfold AdminCancelBookingView, cancel_and_refund, RefundLog_create.
    view_cases; try (by apply ledger_same); by eapply ledger_cancelled.
  - (* RequestWithdrawalView *)
    unfold RequestWithdrawalView.
    view_cases; try (by apply ledger_same); by eapply ledger_flags.
  - (* ApproveWithdrawalView *)
    unfold ApproveWithdrawalView.
    view_cases; try (by apply ledger_same); by eapply ledger_flags.
  - unfold GiftCreateView. view_cases; by apply ledger_same.
  - unfold GiftDecisionView. view_cases; by apply ledger_same.
  - (* ExpireOldGiftsView *)
    unfold ExpireOldGiftsView. case_match; simpl; [by apply ledger_same|].
    apply ledger_same; by apply expire_loop_ledger.
  - unfold ReassignGiftView. view_cases; by apply ledger_same.
  - unfold CreateInvestmentView, CreateInvestmentView_perform_create, Investment_create.
    view_cases; by apply ledger_same.
  - unfold TopUpInvestmentView. view_cases; by apply ledger_same.
  - (* FlutterwaveWebhookView *)
    unfold FlutterwaveWebhookView, webhook_match_investment.
    view_cases; try (by apply ledger_same);
      match goal with
      | H : objects_get _ _ = OneRow _ _ |- _ =>
          apply objects_get_OneRow_lookup in H as [? _]
      end;
      eapply ledger_paid; try done.
    by destruct (Booking.is_paid _).
Qed.

(** ** No double booking *)

Lemma overlaps_true pid start end_ row :
  overlaps pid start end_ row = true ↔
  Booking.property row = pid ∧ Booking.is_cancelled row = false
  ∧ (Booking.start_date row < end_)%Z ∧ (Booking.end_date row > start)%Z.
Proof.
  unfold overlaps.
  rewrite !andb_true_iff, bool_decide_eq_true, negb_true_iff, Z.ltb_lt, Z.gtb_gt.
  tauto.
Qed.

Lemma overlaps_false pid start end_ row :
  overlaps pid start end_ row = false →
  Booking.property row = pid → Booking.is_cancelled row = false →
  ¬ ((Booking.start_date row < end_)%Z ∧ (start < Booking.end_date row)%Z).
Proof.
  intros Hno Hp Hc [Hs He].
  assert (overlaps pid start end_ row = true) as Hyes
    by (apply overlaps_true; repeat split; [done|done|done|lia]).
  congruence.
Qed.

(** A row rewritten in place: what a later lookup can find. *)
Lemma lookup_rewritten {A} (t : gmap nat A) k (row row' : A) i a :
  t !! k = Some row → <[k := row']> t !! i = Some a →
  (i = k ∧ a = row') ∨ (i ≠ k ∧ t !! i = Some a).
Proof.
  intros Hk. rewrite lookup_insert_Some. intros [[-> ->]|[Hne Hi]]; auto.
Qed.

Lemma no_double_booking_rewritten db t' k b b' :
  bookings db !! k = Some b →
  t' = <[k := b']> (bookings db) →
  Booking.property b' = Booking.property b →
  Booking.start_date b' = Booking.start_date b →
  Booking.end_date b' = Booking.end_date b →
  (Booking.is_cancelled b' = false → Booking.is_cancelled b = false) →
  no_double_booking db →
  ∀ i j x y, t' !! i = Some x → t' !! j = Some y → i ≠ j →
    Booking.property x = Booking.property y →
    Booking.is_cancelled x = false → Booking.is_cancelled y = false →
    ¬ date_ranges_overlap x y.
Proof.
  intros Hk -> Hp Hs He Hc Hinv i j x y Hi Hj Hij Hxy Hx Hy.
  unfold date_ranges_overlap.
  destruct (lookup_rewritten _ _ _ _ _ _ Hk Hi) as [[-> ->]|[Hik Hi']];
    destruct (lookup_rewritten _ _ _ _ _ _ Hk Hj) as [[-> ->]|[Hjk Hj']];
    try done.
  - rewrite Hs, He.
    apply (Hinv k j b y); [done|done|done|congruence|by apply Hc|done].
  - rewrite Hs, He.
    apply (Hinv i k x b); [done|done|done|congruence|done|by apply Hc].
  - by apply (Hinv i j x y).
Qed.

Lemma ledger_change_no_double_booking db db' :
  ledger_change db db' → no_double_booking db → no_double_booking db'.
Proof.
  intros Hstep Hinv. unfold no_double_booking.
  destruct Hstep as [Hb _|k b Hk _ Hb _|k b c Hk _ Hb _ _|k b Hk Hb _
                    |b uuid _ Hdays _ Hfree Hb _|k c rq wd _ Hb _].
  - rewrite Hb. apply Hinv.
  - by eapply (no_double_booking_rewritten db _ k b).
  - by eapply (no_double_booking_rewritten db _ k b).
  - by eapply (no_double_booking_rewritten db _ k b).
  - rewrite Hb. intros i j x y Hi Hj Hij Hxy Hx Hy.
    apply lookup_insert_Some in Hi as [[<- <-]|[Hi' Hi]];
      apply lookup_insert_Some in Hj as [[<- <-]|[Hj' Hj]]; try done.
    + intros [H1 H2].
      apply (overlaps_false _ _ _ _ (Hfree j y Hj)); [done|done|]. lia.
    + intros [H1 H2].
      apply (overlaps_false _ _ _ _ (Hfree i x Hi)); [done|done|]. lia.
    + by apply (Hinv i j x y).
  - rewrite Hb. apply Hinv.
Qed.

Lemma handle_no_double_booking cfg r db :
  no_double_booking db → no_double_booking (handle cfg r db).1.
Proof. apply ledger_change_no_double_booking, handle_ledger_change. Qed.

Lemma run_no_double_booking cfg rs db :
  no_double_booking db → no_double_booking (run cfg rs db).
Proof.
  revert db. induction rs as [|r rs IH]; intros db Hinv; simpl; [done|].
  by apply IH, handle_no_double_booking.
Qed.

(** The date-conflict refusal of [perform_create] is exactly the overlap test. *)
Lemma perform_create_date_conflict cfg actor user property d uuid db :
  Property.is_approved property = true →
  Property.property_type property = "shortlet" →
  (BookingCreateView_perform_create cfg actor user property d uuid db).2
    = ValidationError "This date range is already booked."
  ↔ ∃ k row, bookings db !! k = Some row
      ∧ overlaps (BookingSerializer.property d) (BookingSerializer.start_date d)
          (BookingSerializer.end_date d) row = true.
Proof.
  intros Happ Hty. unfold BookingCreateView_perform_create, Booking_create.
  rewrite Happ, Hty. simpl. rewrite <-objects_exists_true.
  view_cases; naive_solver.
Qed.

(** C6. With an approved short-let listing, [perform_create] refuses a
    request for a date conflict exactly when an active booking of the
    listing satisfies [existing.start < end ∧ existing.end > start]; every
    request keeps the active bookings of each listing pairwise disjoint;
    and a stay ending on day D does not conflict with one starting on D. *)
Theorem booking_date_conflict_and_no_overlap cfg actor user property d uuid db :
  Property.is_approved property = true →
  Property.property_type property = "shortlet" →
  ((BookingCreateView_perform_create cfg actor user property d uuid db).2
     = ValidationError "This date range is already booked."
   ↔ ∃ k existing, bookings db !! k = Some existing
       ∧ Booking.property existing = BookingSerializer.property d
       ∧ Booking.is_cancelled existing = false
       ∧ (Booking.start_date existing < BookingSerializer.end_date d)%Z
       ∧ (Booking.end_date existing > BookingSerializer.start_date d)%Z)
  ∧ (∀ rs, no_double_booking db → no_double_booking (run cfg rs db))
  ∧ (∀ pid D end_ existing,
       Booking.end_date existing = D → overlaps pid D end_ existing = false)
  ∧ (∀ pid start D existing,
       Booking.start_date existing = D → overlaps pid start D existing = false).
Proof.
  intros Happ Hty. split_and!.
  - rewrite perform_create_date_conflict by done.
    by setoid_rewrite overlaps_true.
  - intros rs. apply run_no_double_booking.
  - intros pid D end_ existing <-. apply not_true_iff_false.
    rewrite overlaps_true. lia.
  - intros pid start D existing <-. apply not_true_iff_false.
    rewrite overlaps_true. lia.
Qed.

(** ** Bookings paid from credit earn no commission *)

Lemma FlutterwaveWebhookView_commissions cfg p now db :
  commissions (FlutterwaveWebhookView cfg p now db).1 = commissions db.
Proof.
  unfold FlutterwaveWebhookView, webhook_match_investment. by view_cases.
Qed.

Lemma ledger_change_paid_without_commission pk db db' :
  ledger_change db db' →
  paid_without_commission pk db → paid_without_commission pk db'.
Proof.
  intros Hstep [(b0 & Hpk & Hpaid) Hnone]. unfold paid_without_commission.
  destruct Hstep as [Hb Hc|k b Hk Hun Hb Hc|k b c Hk Hun Hb Hcb Hc|k b Hk Hb Hc
                    |b uuid _ _ _ _ Hb Hc|k c rq wd Hk Hb Hc];
    rewrite Hb, Hc; clear Hb Hc.
  - eauto.
  - assert (k ≠ pk) by (intros ->; congruence).
    rewrite lookup_insert_ne by done. eauto.
  - assert (k ≠ pk) by (intros ->; congruence).
    rewrite lookup_insert_ne by done. split; [eauto|].
    intros j c' [[_ <-]|[_ Hj]]%lookup_insert_Some; [congruence|eauto].
  - split; [|done]. destruct (decide (k = pk)) as [->|Hne].
    + rewrite lookup_insert_eq. simplify_eq. eauto.
    + rewrite lookup_insert_ne by done. eauto.
  - rewrite lookup_insert_ne by (symmetry; by eapply new_pk_ne). eauto.
  - split; [eauto|].
    intros j c' [[_ <-]|[_ Hj]]%lookup_insert_Some; [simpl|]; eauto.
Qed.

Lemma run_paid_without_commission cfg pk rs db :
  paid_without_commission pk db → paid_without_commission pk (run cfg rs db).
Proof.
  revert db. induction rs as [|r rs IH]; intros db Hinv; simpl; [done|].
  apply IH. eapply ledger_change_paid_without_commission; [|done].
  apply handle_ledger_change.
Qed.

(** What a successful [BookingCreateView] leaves in the two tables. *)
Lemma BookingCreateView_created cfg actor d uuid db db1 pk :
  BookingCreateView cfg actor d uuid db = (db1, Created pk) →
  pk = new_pk (bookings db)
  ∧ commissions db1 = commissions db
  ∧ ∃ b, bookings db1 = <[pk := b]> (bookings db) ∧ Booking.is_paid b = true.
Proof.
  unfold BookingCreateView, BookingCreateView_perform_create, Booking_create.
  view_cases; intros; simplify_eq. simpl. eauto.
Qed.

Lemma webhook_match_investment_bookings cfg r now db :
  bookings (webhook_match_investment cfg r now db).1 = bookings db.
Proof. unfold webhook_match_investment. by view_cases. Qed.

Lemma MarkBookingAsPaidView_paid cfg actor k db b :
  bookings db !! k = Some b → Booking.is_paid b = true →
  (MarkBookingAsPaidView cfg actor k db).1 = db.
Proof.
  intros Hk Hpaid. unfold MarkBookingAsPaidView. rewrite Hk, Hpaid.
  by destruct (negb (IsAdminUser db actor)).
Qed.

Lemma FlutterwaveWebhookView_paid cfg p now k db b :
  bookings db !! k = Some b → Booking.is_paid b = true →
  bookings (FlutterwaveWebhookView cfg p now db).1 !! k = Some b.
Proof.
  intros Hk Hpaid. unfold FlutterwaveWebhookView, escape.
  view_cases; rewrite ?webhook_match_investment_bookings; try done.
  match goal with
  | H : objects_get _ _ = OneRow _ _ |- _ =>
      apply objects_get_OneRow_lookup in H as [? _]
  end.
  rewrite lookup_insert_ne; [done|]. intros ->. simplify_eq.
  by destruct (Booking.is_paid b).
Qed.

(** C10. A booking made through [BookingCreateView] is stored as paid;
    marking it paid again and delivering a webhook leave it, and the
    commissions, as they are; and after any further sequence of requests no
    commission refers to it. *)
Theorem credit_booking_never_earns_commission cfg actor d uuid db db1 pk :
  commissions_have_bookings db →
  BookingCreateView cfg actor d uuid db = (db1, Created pk) →
  (∃ b, bookings db1 !! pk = Some b ∧ Booking.is_paid b = true
     ∧ (∀ admin, (MarkBookingAsPaidView cfg admin pk db1).1 = db1)
     ∧ (∀ p now,
          bookings (FlutterwaveWebhookView cfg p now db1).1 !! pk = Some b
          ∧ commissions (FlutterwaveWebhookView cfg p now db1).1 = commissions db1))
  ∧ ∀ rs k c,
      commissions (run cfg rs db1) !! k = Some c → Commission.booking c ≠ pk.
Proof.
  intros Hfk Hcreate.
  destruct (BookingCreateView_created _ _ _ _ _ _ _ Hcreate)
    as (-> & Hc & b & Hb & Hpaid).
  assert (bookings db1 !! new_pk (bookings db) = Some b) as Hpk
    by by rewrite Hb, lookup_insert_eq.
  assert (paid_without_commission (new_pk (bookings db)) db1) as Hinv.
  { split; [by exists b|].
    rewrite Hc. intros k c Hk Heq. destruct (Hfk k c Hk) as [b' Hb'].
    rewrite Heq, new_pk_fresh in Hb'. done. }
  split.
  - exists b. split_and!; [done|done| |].
    + intros admin. by eapply MarkBookingAsPaidView_paid.
    + intros p now. split; [by apply FlutterwaveWebhookView_paid|].
      apply FlutterwaveWebhookView_commissions.
  - intros rs. apply (run_paid_without_commission cfg _ rs) in Hinv. apply Hinv.
Qed.

(** ** Payment reconciliation *)

Lemma Qle_bool_refl (x : Q) : Qle_bool x x = true.
Proof. apply Qle_bool_iff, Qle_refl. Qed.

(** Once the investment carrying a reference is settled, matching the
    reference again changes nothing. *)
Lemma webhook_match_investment_settled cfg r now now' db :
  let db1 := (webhook_match_investment cfg r now db).1 in
  (webhook_match_investment cfg r now' db1).1 = db1.
Proof.
  cbv zeta. unfold webhook_match_investment, escape.
  destruct (objects_get (Investment_same_ref r) (investments db))
    as [|pk investment|] eqn:Hget; simpl.
  - by rewrite Hget.
  - destruct (negb (Qle_bool _ _)) eqn:Hdue; simpl.
    + destruct (users db !! Investment.investor investment) as [investor|] eqn:Hu; simpl.
      * erewrite objects_get_update; [|done|].
        -- simpl. by rewrite Qle_bool_refl.
        -- by apply objects_get_OneRow_lookup in Hget as [_ Href].
      * destruct (ATOMIC_REQUESTS cfg) eqn:Hcfg; simpl;
          rewrite Hget, Hdue, Hu; simpl; by rewrite ?Hcfg.
    + by rewrite Hget, Hdue.
  - destruct (ATOMIC_REQUESTS cfg) eqn:Hcfg; simpl; rewrite Hget; simpl; by rewrite ?Hcfg.
Qed.

(** C5. When no reference is shared between a booking and an investment
    (references are drawn apart by construction), delivering a webhook a
    second time, at any later time, leaves the store exactly as the first
    delivery left it. *)
Theorem webhook_idempotent cfg p now now' db :
  refs_disjoint db →
  let once := (FlutterwaveWebhookView cfg p now db).1 in
  (FlutterwaveWebhookView cfg p now' once).1 = once.
Proof.
  intros Hrefs. cbv zeta. unfold FlutterwaveWebhookView, escape.
  destruct (negb (bool_decide (Webhook.event p = _))) eqn:Hev; simpl; [done|].
  destruct (negb (bool_decide (Webhook.status p = _))) eqn:Hst; simpl; [done|].
  destruct (objects_get (Booking_same_ref (Webhook.tx_ref p)) (bookings db))
    as [|pk booking|] eqn:Hget; simpl.
  - (* no booking carries the reference *)
    rewrite webhook_match_investment_bookings, Hget.
    apply webhook_match_investment_settled.
  - destruct (negb (Booking.is_paid booking)) eqn:Hpaid; simpl.
    + (* the booking is marked paid; no investment can carry its reference *)
      erewrite objects_get_update; [|done|].
      2:{ by apply objects_get_OneRow_lookup in Hget as [_ Href]. }
      simpl. unfold webhook_match_investment. simpl.
      rewrite objects_get_none; [done|].
      intros ki i Hi. apply objects_get_OneRow_lookup in Hget as [Hb Href].
      unfold Booking_same_ref, Investment_same_ref in *.
      apply bool_decide_eq_true in Href. apply bool_decide_eq_false.
      specialize (Hrefs pk booking Hb ki i Hi). simpl in Hrefs. congruence.
    + (* the booking was paid already *)
      rewrite webhook_match_investment_bookings, Hget, Hpaid.
      apply webhook_match_investment_settled.
  - destruct (ATOMIC_REQUESTS cfg) eqn:Hcfg; simpl; rewrite Hget; simpl; by rewrite ?Hcfg.
Qed.

(** ** What a request can do to the investments *)

Lemma expire_loop_investments cfg db0 rows expired converted db :
  investments db = investments db0 →
  investments (expire_loop cfg db0 rows expired converted db).1 = investments db0.
Proof.
  revert expired converted db.
  induction rows as [|[pk gift] rest IH]; intros expired converted db Hi; simpl.
  - done.
  - repeat case_match; unfold escape; simpl;
      try (destruct (ATOMIC_REQUESTS cfg); done);
      apply IH; done.
Qed.

Lemma handle_investments_change cfg r db :
  investments_change (investments db) (investments (handle cfg r db).1).
Proof.
  destruct r; simpl.
  - unfold BookingCreateView, BookingCreateView_perform_create, Booking_create.
    view_cases; by apply investments_same.
  - unfold MarkBookingAsPaidView, Commission_create.
    view_cases; by apply investments_same.
  - unfold CancelBookingView, cancel_and_refund, RefundLog_create.
    view_cases; by apply investments_same.
  - unfold AdminCancelBookingView, cancel_and_refund, RefundLog_create.
    view_cases; by apply investments_same.
  - unfold RequestWithdrawalView. view_cases; by apply investments_same.
  - unfold ApproveWithdrawalView. view_cases; by apply investments_same.
  - unfold GiftCreateView. view_cases; by apply investments_same.
  - unfold GiftDecisionView. view_cases; by apply investments_same.
  - unfold ExpireOldGiftsView. case_match; simpl; [by apply investments_same|].
    apply investments_same. by apply expire_loop_investments.
  - unfold ReassignGiftView. view_cases; by apply investments_same.
  - (* CreateInvestmentView *)
    unfold CreateInvestmentView, CreateInvestmentView_perform_create, Investment_create.
    view_cases; try (by apply investments_same); simplify_eq;
      (eapply investments_created with (uuid := uuid); [| |reflexivity];
       [reflexivity|unfold balanced; simpl; ring]).
  - (* TopUpInvestmentView *)
    unfold TopUpInvestmentView.
    view_cases; try (by apply investments_same);
      (eapply investments_paid; [eassumption| |reflexivity]);
      unfold balanced; intros ->; ring.
  - (* FlutterwaveWebhookView *)
    unfold FlutterwaveWebhookView, webhook_match_investment.
    view_cases; try (by apply investments_same);
      match goal with
      | H : objects_get _ (investments _) = OneRow _ _ |- _ =>
          apply objects_get_OneRow_lookup in H as [? _]
      end;
      (eapply investments_paid; [eassumption| |reflexivity]);
      intros _; ring.
Qed.

Lemma handle_investments_balanced cfg r db :
  investments_balanced db → investments_balanced (handle cfg r db).1.
Proof.
  unfold investments_balanced. intros Hinv.
  destruct (handle_investments_change cfg r db) as [->|i uuid _ Hi ->|k i paid rem st Hk Hi ->].
  - done.
  - by apply map_Forall_insert_2.
  - apply map_Forall_insert_2; [|done].
    unfold balanced. simpl. apply Hi. by apply (Hinv k).
Qed.

Lemma run_investments_balanced cfg rs db :
  investments_balanced db → investments_balanced (run cfg rs db).
Proof.
  revert db. induction rs as [|r rs IH]; intros db Hinv; simpl; [done|].
  by apply IH, handle_investments_balanced.
Qed.

(** References stay in their namespaces, so they stay disjoint. *)
Lemma namespaced_refs_disjoint db : namespaced db → refs_disjoint db.
Proof.
  intros [Hb Hi] kb b Hkb ki i Hki.
  destruct (Hb kb b Hkb) as [u ->]. destruct (Hi ki i Hki) as [u' ->].
  simpl. discriminate.
Qed.

Lemma handle_namespaced cfg r db : namespaced db → namespaced (handle cfg r db).1.
Proof.
  intros [Hb Hi]. split.
  - destruct (handle_ledger_change cfg r db)
      as [-> _|k b Hk _ -> _|k b c Hk _ -> _ _|k b Hk -> _|b uuid _ _ Href _ -> _
         |k c rq wd _ -> _]; try done;
      try (apply map_Forall_insert_2; [|done]; simpl; by apply (Hb k)).
    apply map_Forall_insert_2; [|done]. eauto.
  - destruct (handle_investments_change cfg r db)
      as [->|i uuid Href _ ->|k i paid rem st Hk _ ->]; [done| |].
    + apply map_Forall_insert_2; [|done]. eauto.
    + apply map_Forall_insert_2; [|done]. simpl. by apply (Hi k).
Qed.

Lemma run_refs_disjoint cfg rs db : namespaced db → refs_disjoint (run cfg rs db).
Proof.
  intros Hns. apply namespaced_refs_disjoint. revert db Hns.
  induction rs as [|r rs IH]; intros db Hns; simpl; [done|].
  by apply IH, handle_namespaced.
Qed.

(** ** Investment top-up *)

Lemma Qle_bool_false (x y : Q) : Qle_bool x y = false ↔ (y < x)%Q.
Proof.
  rewrite <-not_true_iff_false, Qle_bool_iff. split.
  - apply Qnot_le_lt.
  - apply Qlt_not_le.
Qed.

Lemma Qeq_bool_false (x y : Q) : Qeq_bool x y = false ↔ ¬ (x == y)%Q.
Proof. by rewrite <-not_true_iff_false, Qeq_bool_iff. Qed.



(** ** Booking from credit *)

(** C7, as the code has it.  For a request on an approved short-let with
    end after start and no overlapping active booking, the price is
    [(end - start)] nights at the listing's price.  The request is refused
    for insufficient credit, debiting nothing, exactly when the credit is
    zero or below the price; a booking is only ever created otherwise; and
    when the table's uniqueness constraints accept the row, the booking is
    created as paid, the credit is debited by exactly the price, and the
    reference ["TobiTx-<uuid>"] is carried by no other booking. *)
Theorem booking_paid_from_credit cfg actor user property d uuid db :
  let pid := BookingSerializer.property d in
  let start := BookingSerializer.start_date d in
  let end_ := BookingSerializer.end_date d in
  let credit := User.shortlet_credit user in
  let total := (inject_Z (end_ - start) * Property.price property)%Q in
  let row :=
    Booking.mk actor pid start end_ total (BookingSerializer.is_cancelled d) true
      (Some ("TobiTx-" +:+ uuid)) in
  let r := BookingCreateView_perform_create cfg actor user property d uuid db in
  Property.is_approved property = true →
  Property.property_type property = "shortlet" →
  (start < end_)%Z →
  objects_exists (overlaps pid start end_) (bookings db) = false →
  (((credit == 0)%Q ∨ (credit < total)%Q) ↔
     r = (db, ValidationError "Insufficient shortlet credit to book this property."))
  ∧ (∀ pk, r.2 = Created pk → ¬ (credit == 0)%Q ∧ (total <= credit)%Q)
  ∧ (¬ (credit == 0)%Q → (total <= credit)%Q →
     objects_exists (Booking_collides row) (bookings db) = false →
     ∃ pk, r.2 = Created pk
       ∧ bookings db !! pk = None
       ∧ bookings r.1 = <[pk := row]> (bookings db)
       ∧ users r.1
         = <[actor := User.set_shortlet_credit (credit - total)%Q user]> (users db)
       ∧ ∀ k other, bookings db !! k = Some other →
           Booking.tx_ref other ≠ Booking.tx_ref row).
Proof.
  cbv zeta. intros Happ Hty Hdays Hfree.
  unfold BookingCreateView_perform_create, Booking_create, truthy.
  rewrite Happ, Hty, Hfree. simpl.
  assert ((BookingSerializer.end_date d - BookingSerializer.start_date d <=? 0)%Z = false)
    as -> by lia.
  destruct (Qeq_bool (User.shortlet_credit user) 0) eqn:Hzero; simpl.
  { apply Qeq_bool_iff in Hzero. split_and!; [tauto|intros; simplify_eq|tauto]. }
  apply Qeq_bool_false in Hzero.
  destruct (Qle_bool _ (User.shortlet_credit user)) eqn:Hle; simpl.
  - apply Qle_bool_iff in Hle. split_and!.
    + split; [intros [?|?]; [done|lra]|].
      unfold escape. case_match; intros; simplify_eq.
    + done.
    + intros _ _ Hok. rewrite Hok. simpl.
      eexists. split_and!; [done|apply new_pk_fresh|done|done|].
      intros k other Hk Href.
      apply objects_exists_false with (k := k) (row := other) in Hok; [|done].
      unfold Booking_collides, Booking_same_ref in Hok. simpl in Hok.
      apply orb_false_elim in Hok as [_ Hok].
      apply bool_decide_eq_false in Hok. done.
  - apply Qle_bool_false in Hle. split_and!.
    + tauto.
    + intros; simplify_eq.
    + intros _ Hge. lra.
Qed.

(** C7 as stated fails on a free listing: the credit (zero) covers the
    total (zero), yet the request is refused for insufficient credit. *)
Lemma free_listing_refused_with_covering_credit :
  let total :=
    (inject_Z (BookingSerializer.end_date Sample.free_nights
               - BookingSerializer.start_date Sample.free_nights)
     * Property.price Sample.free_room)%Q in
  Property.is_approved Sample.free_room = true
  ∧ Property.property_type Sample.free_room = "shortlet"
  ∧ (BookingSerializer.start_date Sample.free_nights
     < BookingSerializer.end_date Sample.free_nights)%Z
  ∧ (total <= User.shortlet_credit Sample.investor)%Q
  ∧ BookingCreateView django_defaults 4 Sample.free_nights "u" Sample.store
    = (Sample.store,
       ValidationError "Insufficient shortlet credit to book this property.").
Proof. cbv zeta. split_and!; [done|done|done|by vm_compute|by vm_compute]. Qed.

Lemma booking_paid_from_credit_witness :
  ∃ pk,
    (BookingCreateView_perform_create django_defaults 3 Sample.guest Sample.flat
       Sample.three_nights "u" Sample.store).2 = Created pk
    ∧ users (BookingCreateView_perform_create django_defaults 3 Sample.guest Sample.flat
               Sample.three_nights "u" Sample.store).1 !! 3
      = Some (User.set_shortlet_credit (30000 - inject_Z (103 - 100) * 10000)%Q
                Sample.guest).
Proof.
  destruct (booking_paid_from_credit django_defaults 3 Sample.guest Sample.flat
              Sample.three_nights "u" Sample.store
              eq_refl eq_refl eq_refl eq_refl) as (_ & _ & Hcreated).
  destruct Hcreated as (pk & Hpk & _ & _ & Husers & _);
    [by vm_compute|by vm_compute|by vm_compute|].
  exists pk. split; [exact Hpk|]. rewrite Husers. apply lookup_insert_eq.
Defined.

(** ** Marking a booking paid *)

(** Marking twice is marking once. *)
Lemma MarkBookingAsPaidView_idempotent cfg actor k db :
  let once := (MarkBookingAsPaidView cfg actor k db).1 in
  (MarkBookingAsPaidView cfg actor k once).1 = once.
Proof.
  cbv zeta. unfold MarkBookingAsPaidView, Commission_create, escape, IsAdminUser.
  destruct (users db !! actor) as [u|] eqn:Hu; simpl; [|by rewrite Hu].
  destruct (User.is_staff u) eqn:Hstaff; simpl; [|by rewrite Hu, Hstaff].
  destruct (bookings db !! k) as [b|] eqn:Hk; simpl; [|by rewrite Hu, Hstaff, Hk].
  destruct (Booking.is_paid b) eqn:Hpaid; simpl; [by rewrite Hu, Hstaff, Hk, Hpaid|].
  destruct (properties db !! Booking.property b) as [p|] eqn:Hp; simpl.
  - destruct (users db !! Property.agent p) as [a|] eqn:Ha; simpl.
    + destruct (objects_exists _ (commissions db)) eqn:Hc; simpl.
      * destruct (ATOMIC_REQUESTS cfg) eqn:Hcfg; simpl; rewrite Hu, Hstaff; simpl.
        -- rewrite Hk, Hpaid, Hp, Ha, Hc. simpl. by rewrite ?Hcfg.
        -- by rewrite lookup_insert_eq.
      * rewrite Hu, Hstaff. simpl. by rewrite lookup_insert_eq.
    + destruct (ATOMIC_REQUESTS cfg) eqn:Hcfg; simpl; rewrite Hu, Hstaff; simpl.
      * rewrite Hk, Hpaid, Hp, Ha. simpl. by rewrite ?Hcfg.
      * by rewrite lookup_insert_eq.
  - destruct (ATOMIC_REQUESTS cfg) eqn:Hcfg; simpl; rewrite Hu, Hstaff; simpl.
    + rewrite Hk, Hpaid, Hp. simpl. by rewrite ?Hcfg.
    + by rewrite lookup_insert_eq.
Qed.


(** C1 (the reconciliation path).  The webhook never writes to the
    [Commission] table.  Delivered for the unpaid sample stay, it takes the
    booking from unpaid to paid and stores no commission, where the admin's
    marking of the same stay stores one commission of 3,000 for the agent. *)
Theorem webhook_pays_booking_without_commission :
  (∀ cfg p now db,
     commissions (FlutterwaveWebhookView cfg p now db).1 = commissions db)
  ∧ let db' :=
      (FlutterwaveWebhookView django_defaults Sample.stay_settled 0
         Sample.unpaid_store).1 in
    (Booking.is_paid <$> bookings Sample.unpaid_store !! 1) = Some false
    ∧ (Booking.is_paid <$> bookings db' !! 1) = Some true
    ∧ size (commissions db') = 0
    ∧ map_to_list (commissions Sample.settled_store)
      = [(0, Commission.mk 2 1 (30000 * (10 # 100))%Q false false)].
Proof.
  split; [apply FlutterwaveWebhookView_commissions|].
  cbv zeta. split_and!; by vm_compute.
Qed.

(** ** Gift expiry *)

Lemma expire_loop_users cfg db0 rows expired converted db :
  users db = users db0 →
  users (expire_loop cfg db0 rows expired converted db).1 = users db0.
Proof.
  revert expired converted db.
  induction rows as [|[pk gift] rest IH]; intros expired converted db Hu; simpl.
  - done.
  - repeat case_match; unfold escape; simpl;
      try (destruct (ATOMIC_REQUESTS cfg); done);
      apply IH; done.
Qed.

(** C2.  The expiry job never changes a user row, so no sender is ever
    credited.  On the sample gift (villa at 50,000, expiry at day 7, job
    run at day 8 by the admin, no reassignment) the gift is stored as
    expired, then reading [wallet_balance] raises: the sender's credit is
    what it was and [converted_to_credit] stays false.  Run in a
    transaction, the job leaves the gift pending and raises every time. *)
Theorem expire_old_gifts_never_credits :
  (∀ cfg actor now db, users (ExpireOldGiftsView cfg actor now db).1 = users db)
  ∧ let r :=
      ExpireOldGiftsView django_defaults 1 (timedelta_days 8) Sample.gift_store in
    r.2 = Raised AttributeError
    ∧ gifts r.1 !! 1 = Some (Gift.set_status "expired" Sample.villa_gift)
    ∧ (Gift.converted_to_credit <$> gifts r.1 !! 1) = Some false
    ∧ (User.shortlet_credit <$> users r.1 !! 3)
      = (User.shortlet_credit <$> users Sample.gift_store !! 3)
    ∧ ExpireOldGiftsView django_defaults 1 (timedelta_days 9) r.1
      = (r.1, ExpiredGifts 0 0)
    ∧ ExpireOldGiftsView {| ATOMIC_REQUESTS := true |} 1 (timedelta_days 8)
        Sample.gift_store
      = (Sample.gift_store, Raised AttributeError).
Proof.
  split.
  - intros cfg actor now db. unfold ExpireOldGiftsView.
    case_match; simpl; [done|]. by apply expire_loop_users.
  - cbv zeta. split_and!; by vm_compute.
Qed.

(** ** Creating an investment *)

(** C3, as the code has it.  A successful creation on the full plan stores
    an investment paid in full with nothing remaining and makes the
    investor Platinum for 365 days from now, but the stored status is the
    model's default ['active'], not ['completed']. *)
Theorem full_plan_investment_stays_active cfg actor d uuid now db db' pk :
  InvestmentSerializer.payment_plan d = "full" →
  CreateInvestmentView cfg actor d uuid now db = (db', Created pk) →
  ∃ user property cost inv,
    users db !! actor = Some user
    ∧ properties db !! InvestmentSerializer.property d = Some property
    ∧ Property.is_approved property = true
    ∧ Property.cost_price property = Some cost
    ∧ investments db !! pk = None
    ∧ investments db' !! pk = Some inv
    ∧ Investment.total_price inv = cost
    ∧ Investment.amount_paid inv = cost
    ∧ Investment.remaining_balance inv = 0%Q
    ∧ Investment.status inv = "active"
    ∧ users db' !! actor
      = Some (User.set_membership "Platinum" (now + timedelta_days 365)%Z user).
Proof.
  intros Hplan. unfold CreateInvestmentView, CreateInvestmentView_perform_create,
    Investment_create. rewrite Hplan. simpl.
  destruct (users db !! actor) as [user|] eqn:Hu; [|done].
  destruct (properties db !! _) as [property|] eqn:Hp; [|done].
  destruct (negb (bool_decide _)); simpl; [done|].
  destruct (Property.is_approved property) eqn:Happ; simpl; [|done].
  destruct (Property.cost_price property) as [cost|] eqn:Hcost; [|done].
  destruct (negb (truthy cost)); simpl; [done|].
  destruct (objects_exists _ _); simpl; unfold escape; intros; simplify_eq.
  exists user, property, cost. eexists.
  split_and!;
    [done|done|done|done|apply new_pk_fresh|apply lookup_insert_eq
    |done|done|done|done|apply lookup_insert_eq].
Qed.

Lemma full_plan_investment_stays_active_witness :
  ∃ inv,
    investments (CreateInvestmentView django_defaults 4 Sample.full_plan "u" 0
                   Sample.store).1 !! 0 = Some inv
    ∧ Investment.amount_paid inv = 1000000%Q
    ∧ Investment.remaining_balance inv = 0%Q
    ∧ Investment.status inv = "active".
Proof.
  destruct (full_plan_investment_stays_active django_defaults 4 Sample.full_plan "u" 0
              Sample.store
              (CreateInvestmentView django_defaults 4 Sample.full_plan "u" 0
                 Sample.store).1 0 eq_refl)
    as (user & property & cost & inv & _ & Hp & _ & Hcost & _ & Hinv & _ & Hpaid
        & Hrem & Hst & _).
  - by vm_compute.
  - exists inv. split_and!; try done.
    rewrite Hpaid. vm_compute in Hp. simplify_eq. vm_compute in Hcost. by simplify_eq.
Defined.




(** ** Reassigning a gift *)

(** Once a reassignment has resolved to an account, every later attempt
    on the gift is refused. *)
Lemma ReassignGiftView_already_reassigned cfg actor k mail db gift who :
  IsAuthenticated db actor = true →
  gifts db !! k = Some gift →
  Gift.sender gift = actor → Gift.status gift = "pending" →
  Gift.reassigned_to gift = Some who →
  ReassignGiftView cfg actor k mail db
  = (db, Response 400 "Gift has already been reassigned").
Proof.
  intros Hauth Hk Hs Hst Hre. unfold ReassignGiftView.
  rewrite Hauth, Hk, Hs, Hst, Hre. simpl.
  by rewrite bool_decide_eq_true_2.
Qed.


(** ** From the empty store *)

Lemma handle_commissions_have_bookings cfg r db :
  commissions_have_bookings db → commissions_have_bookings (handle cfg r db).1.
Proof.
  unfold commissions_have_bookings. intros Hfk.
  destruct (handle_ledger_change cfg r db)
    as [-> ->|k b Hk _ -> ->|k b c Hk _ -> Hcb ->|k b Hk -> ->
       |b uuid _ _ _ _ -> ->|k c rq wd Hk -> ->]; try done.
  - intros j c Hj. rewrite lookup_insert_is_Some'. right. by apply (Hfk j).
  - apply map_Forall_insert_2.
    + rewrite Hcb, lookup_insert_is_Some'. by left.
    + intros j c' Hj. rewrite lookup_insert_is_Some'. right. by apply (Hfk j).
  - intros j c Hj. rewrite lookup_insert_is_Some'. right. by apply (Hfk j).
  - intros j c Hj. rewrite lookup_insert_is_Some'. right. by apply (Hfk j).
  - apply map_Forall_insert_2; [|done]. simpl. by apply (Hfk k).
Qed.

(** Every store the views can build from nothing satisfies the premises
    used above. *)
Lemma run_from_empty_store cfg rs :
  let db := run cfg rs empty_db in
  no_double_booking db ∧ commissions_have_bookings db
  ∧ investments_balanced db ∧ refs_disjoint db.
Proof.
  cbv zeta. split_and!.
  - apply run_no_double_booking. intros i j a b Hi. simpl in Hi.
    by rewrite lookup_empty in Hi.
  - assert (commissions_have_bookings empty_db) as Hinit by apply map_Forall_empty.
    revert Hinit. generalize empty_db.
    induction rs as [|r rs IH]; intros db Hinit; simpl; [done|].
    by apply IH, handle_commissions_have_bookings.
  - apply run_investments_balanced, map_Forall_empty.
  - apply run_refs_disjoint. split; apply map_Forall_empty.
Qed.

(** * The scenarios of the specification *)

(** Listing at 10,000 a night, days 100 to 103, credit 30,000: the booking
    costs 30,000, is stored paid, and the credit is debited to zero. *)
Example scenario_three_nights :
  let r := BookingCreateView django_defaults 3 Sample.three_nights "u" Sample.store in
  r.2 = Created 0
  ∧ bookings r.1 !! 0
    = Some (Booking.mk 3 1 100 103 (inject_Z 3 * 10000)%Q false true (Some "TobiTx-u"))
  ∧ (User.shortlet_credit <$> users r.1 !! 3) = Some (30000 - inject_Z 3 * 10000)%Q
  ∧ Qeq_bool (30000 - inject_Z 3 * 10000) 0 = true.
Proof. cbv zeta. split_and!; by vm_compute. Qed.

(** The same listing and dates requested again: refused, nothing debited. *)
Example scenario_booked_twice :
  BookingCreateView django_defaults 3 Sample.three_nights "v" Sample.unpaid_store
  = (Sample.unpaid_store,
     ValidationError "The fields property, start_date, end_date must make a unique set.")
  ∧ BookingCreateView_perform_create django_defaults 3 Sample.guest Sample.flat
      Sample.three_nights "v" Sample.unpaid_store
    = (Sample.unpaid_store, ValidationError "This date range is already booked.").
Proof. split; by vm_compute. Qed.

(** A stay ending on day 103 and one starting on day 103 are both booked. *)
Example scenario_back_to_back :
  let db :=
    run django_defaults
      [PostBookingCreate 5 Sample.three_nights "a";
       PostBookingCreate 5 Sample.next_nights "b"] Sample.store in
  size (bookings db) = 2
  ∧ (User.shortlet_credit <$> users db !! 5)
    = Some (100000 - inject_Z 3 * 10000 - inject_Z 2 * 10000)%Q.
Proof. split; by vm_compute. Qed.

(** Installment plan on a cost price of 1,000,000: 600,000 paid, 400,000
    remaining, Gold, credit 5,000,000; topping up 400,000 completes the
    investment, upgrades to Platinum and resets the credit. *)
Example scenario_installment_then_topup :
  let r := TopUpInvestmentView 4 0 400000 5000 Sample.invested_store in
  (∃ inv, investments Sample.invested_store !! 0 = Some inv
     ∧ Qeq_bool (Investment.amount_paid inv) 600000 = true
     ∧ Qeq_bool (Investment.remaining_balance inv) 400000 = true
     ∧ Investment.status inv = "active")
  ∧ (User.membership_tier <$> users Sample.invested_store !! 4) = Some (Some "Gold")
  ∧ (User.shortlet_credit <$> users Sample.invested_store !! 4) = Some 5000000%Q
  ∧ (Investment.status <$> investments r.1 !! 0) = Some "completed"
  ∧ (User.membership_tier <$> users r.1 !! 4) = Some (Some "Platinum")
  ∧ (User.shortlet_credit <$> users r.1 !! 4) = Some 0%Q.
Proof.
  cbv zeta. split_and!; try by vm_compute.
  eexists. split_and!; [by vm_compute|by vm_compute..].
Qed.

(** * Instances on the sample stores *)

Lemma webhook_idempotent_witness :
  (FlutterwaveWebhookView django_defaults Sample.stay_settled 2000
     (FlutterwaveWebhookView django_defaults Sample.stay_settled 1000
        Sample.mixed_store).1).1
  = (FlutterwaveWebhookView django_defaults Sample.stay_settled 1000
       Sample.mixed_store).1.
Proof.
  apply (webhook_idempotent django_defaults Sample.stay_settled 1000 2000
           Sample.mixed_store).
  unfold refs_disjoint. apply (bool_decide_unpack _). by vm_compute.
Defined.

Lemma booking_date_conflict_and_no_overlap_witness :
  (BookingCreateView_perform_create django_defaults 3 Sample.guest Sample.flat
     Sample.three_nights "u" Sample.unpaid_store).2
    = ValidationError "This date range is already booked."
  ↔ ∃ k existing, bookings Sample.unpaid_store !! k = Some existing
      ∧ Booking.property existing = 1
      ∧ Booking.is_cancelled existing = false
      ∧ (Booking.start_date existing < 103)%Z
      ∧ (Booking.end_date existing > 100)%Z.
Proof.
  apply (booking_date_conflict_and_no_overlap django_defaults 3 Sample.guest
           Sample.flat Sample.three_nights "u" Sample.unpaid_store);
    reflexivity.
Defined.


Lemma credit_booking_never_earns_commission_witness :
  objects_get (Commission_for (new_pk (bookings Sample.settled_store)))
    (commissions
       (run django_defaults Sample.afterwards
          (BookingCreateView django_defaults 3 Sample.later_nights "u"
             Sample.settled_store).1))
  = NoRow.
Proof.
  apply objects_get_none. intros k c Hk. apply bool_decide_eq_false.
  revert k c Hk.
  apply (credit_booking_never_earns_commission django_defaults 3 Sample.later_nights
           "u" Sample.settled_store).
  - unfold commissions_have_bookings. apply (bool_decide_unpack _). by vm_compute.
  - by vm_compute.
Defined.

(** * Further properties *)

(** ** Cancelling a booking *)

(** X1. A guest's cancellation before the first day flags the booking and
    answers 200; it logs one refund of the full price for the guest exactly
    when the booking was paid; and it changes no user row, so the credit
    that paid for the booking is not returned. *)
Theorem cancel_booking_logs_refund_keeps_credit cfg actor k today db b property :
  IsAuthenticated db actor = true →
  bookings db !! k = Some b →
  Booking.user b = actor →
  Booking.is_cancelled b = false →
  (today < Booking.start_date b)%Z →
  properties db !! Booking.property b = Some property →
  let r := CancelBookingView cfg actor k today db in
  r.2 = Response 200 "Booking cancelled and refund logged ✅"
  ∧ bookings r.1 = <[k := Booking.set_is_cancelled true b]> (bookings db)
  ∧ users r.1 = users db
  ∧ commissions r.1 = commissions db
  ∧ (Booking.is_paid b = true →
     refund_logs r.1
     = <[new_pk (refund_logs db) :=
           RefundLog.mk actor (Booking.total_price b)
             ("Cancelled short-let booking for '" +:+ Property.title property +:+ "'")]>
         (refund_logs db))
  ∧ (Booking.is_paid b = false → refund_logs r.1 = refund_logs db).
Proof.
  intros Hauth Hk Hown Hactive Hearly Hp. cbv zeta.
  unfold CancelBookingView, cancel_and_refund, RefundLog_create.
  rewrite Hauth, Hk, Hown, Hactive. simpl.
  rewrite bool_decide_eq_true_2 by done. simpl.
  assert ((Booking.start_date b <=? today)%Z = false) as -> by lia.
  destruct (Booking.is_paid b); simpl; rewrite ?Hp; simpl; split_and!; done.
Qed.

(** X2. A stay that has started cannot be cancelled by its guest (400, the
    store untouched), while the admin's cancellation of the same booking
    goes through whatever the date, logging the refund for the guest. *)
Theorem started_stay_only_admin_cancels cfg guest admin k today db b property :
  IsAuthenticated db guest = true →
  IsAdminUser db admin = true →
  bookings db !! k = Some b →
  Booking.user b = guest →
  Booking.is_cancelled b = false →
  (Booking.start_date b <= today)%Z →
  properties db !! Booking.property b = Some property →
  CancelBookingView cfg guest k today db
  = (db, Response 400 "You cannot cancel a booking that has already started.")
  ∧ let r := AdminCancelBookingView cfg admin k db in
    (∃ message, r.2 = Response 200 message)
    ∧ bookings r.1 = <[k := Booking.set_is_cancelled true b]> (bookings db)
    ∧ users r.1 = users db
    ∧ (Booking.is_paid b = true →
       refund_logs r.1
       = <[new_pk (refund_logs db) :=
             RefundLog.mk guest (Booking.total_price b)
               ("Admin cancelled booking for '" +:+ Property.title property +:+ "'")]>
           (refund_logs db))
    ∧ (Booking.is_paid b = false → refund_logs r.1 = refund_logs db).
Proof.
  intros Hauth Hadmin Hk Hown Hactive Hlate Hp. cbv zeta. split.
  - unfold CancelBookingView. rewrite Hauth, Hk, Hown, Hactive. simpl.
    rewrite bool_decide_eq_true_2 by done. simpl.
    by assert ((Booking.start_date b <=? today)%Z = true) as -> by lia.
  - unfold AdminCancelBookingView, cancel_and_refund, RefundLog_create.
    rewrite Hadmin, Hk, Hactive, Hown. simpl.
    destruct (Booking.is_paid b); simpl; rewrite ?Hp; simpl; split_and!; eauto; done.
Qed.

(** X3. A cancelled booking no longer counts in the overlap test, but it
    keeps its (listing, start, end) slot: cancelling it again is refused
    by both views, and a request for exactly its listing and dates is
    turned down by the uniqueness validator with nothing debited. *)
Theorem cancelled_dates_cannot_be_rebooked cfg actor user property k uuid flag db b :
  users db !! actor = Some user →
  bookings db !! k = Some b →
  Booking.is_cancelled b = true →
  properties db !! Booking.property b = Some property →
  overlaps (Booking.property b) (Booking.start_date b) (Booking.end_date b) b = false
  ∧ BookingCreateView cfg actor
      (BookingSerializer.mk (Booking.property b) (Booking.start_date b)
         (Booking.end_date b) flag) uuid db
    = (db, ValidationError
             "The fields property, start_date, end_date must make a unique set.")
  ∧ (∀ who today, (CancelBookingView cfg who k today db).1 = db)
  ∧ (∀ who, (AdminCancelBookingView cfg who k db).1 = db).
Proof.
  intros Hu Hk Hc Hp. split_and!.
  - unfold overlaps. rewrite Hc. simpl. by rewrite andb_false_r.
  - unfold BookingCreateView. rewrite Hu. simpl. rewrite Hp.
    assert (objects_exists
              (Booking_same_dates
                 (Booking.mk actor (Booking.property b) (Booking.start_date b)
                    (Booking.end_date b) 0 false false None)) (bookings db) = true)
      as ->; [|done].
    apply objects_exists_true. exists k, b. split; [done|].
    unfold Booking_same_dates. simpl. by rewrite !bool_decide_eq_true_2.
  - intros who today. unfold CancelBookingView. rewrite Hk, Hc.
    by repeat case_match.
  - intros who. unfold AdminCancelBookingView. rewrite Hk, Hc.
    by repeat case_match.
Qed.

(** ** Bookings over time *)




(** ** Withdrawing a commission *)

(** X5. An accrued commission is withdrawn in two steps: the owning
    agent's request sets [withdrawal_requested]; the admin's approval then
    sets [is_withdrawn] and clears the request, the amount, agent and
    booking staying as they were.  Approval without a request, and a
    request by anyone but the owning agent, are answered 404 and change
    nothing. *)
Theorem withdrawal_takes_request_then_approval agent admin other k db c :
  IsAuthenticated db agent = true →
  IsAuthenticated db other = true →
  IsAdminUser db admin = true →
  commissions db !! k = Some c →
  Commission.agent c = agent → other ≠ agent →
  Commission.withdrawal_requested c = false →
  Commission.is_withdrawn c = false →
  let requested := RequestWithdrawalView agent k db in
  let approved := ApproveWithdrawalView admin k requested.1 in
  ApproveWithdrawalView admin k db = (db, Response 404 "No such pending withdrawal")
  ∧ RequestWithdrawalView other k db
    = (db, Response 404 "Commission not found or not yours")
  ∧ requested.2 = Response 200 "Withdrawal request submitted ✅"
  ∧ commissions requested.1 = <[k := Commission.set_flags true false c]> (commissions db)
  ∧ (∃ message, approved.2 = Response 200 message)
  ∧ commissions approved.1 = <[k := Commission.set_flags false true c]> (commissions db)
  ∧ users approved.1 = users db.
Proof.
  intros Hagent Hother Hadmin Hk Hown Hne Hrq Hwd. cbv zeta.
  unfold RequestWithdrawalView, ApproveWithdrawalView.
  rewrite Hagent, Hother, Hadmin, Hk, Hown, Hrq, Hwd. simpl.
  rewrite (bool_decide_eq_true_2 (agent = agent)) by done.
  rewrite (bool_decide_eq_false_2 (agent = other)) by congruence. simpl.
  unfold IsAdminUser in *. simpl. rewrite Hadmin. simpl.
  rewrite lookup_insert_eq. simpl.
  split_and!; try done; [by eexists|by rewrite insert_insert_eq].
Qed.



(** ** The agent's wallet *)

Lemma py_sum_from (a : Q) (l : list Q) : (foldl Qplus a l == a + py_sum l)%Q.
Proof.
  unfold py_sum. revert a. induction l as [|x l IH]; intros a; simpl.
  - ring.
  - rewrite (IH (a + x)%Q), (IH (0 + x)%Q). ring.
Qed.

Lemma py_sum_cons (x : Q) (l : list Q) : (py_sum (x :: l) == x + py_sum l)%Q.
Proof. unfold py_sum at 1. simpl. rewrite py_sum_from. ring. Qed.

Lemma py_sum_perm (l l' : list Q) : l ≡ₚ l' → (py_sum l == py_sum l')%Q.
Proof.
  induction 1 as [|x l l' _ IH|x y l|l l' l'' _ IH1 _ IH2].
  - reflexivity.
  - by rewrite !py_sum_cons, IH.
  - rewrite !py_sum_cons. ring.
  - by rewrite IH1.
Qed.

Lemma table_sum_insert (t : gmap nat Commission.t) k c :
  t !! k = None →
  (py_sum (Commission.amount <$> (map_to_list (<[k := c]> t)).*2)
   == Commission.amount c + py_sum (Commission.amount <$> (map_to_list t).*2))%Q.
Proof.
  intros Hk. rewrite <-py_sum_cons. apply py_sum_perm.
  by rewrite (map_to_list_insert t k c Hk).
Qed.

Lemma table_sum_delete (t : gmap nat Commission.t) k c :
  t !! k = Some c →
  (py_sum (Commission.amount <$> (map_to_list t).*2)
   == Commission.amount c
      + py_sum (Commission.amount <$> (map_to_list (delete k t)).*2))%Q.
Proof.
  intros Hk. rewrite <-py_sum_cons. apply py_sum_perm.
  by rewrite <-(map_to_list_delete t k c Hk).
Qed.

Lemma table_sum_update (t : gmap nat Commission.t) k c c' :
  t !! k = Some c → Commission.amount c' = Commission.amount c →
  (py_sum (Commission.amount <$> (map_to_list (<[k := c']> t)).*2)
   == py_sum (Commission.amount <$> (map_to_list t).*2))%Q.
Proof.
  intros Hk Hamount. rewrite <-insert_delete_eq.
  rewrite table_sum_insert by apply lookup_delete_eq.
  rewrite (table_sum_delete t k c Hk). by rewrite Hamount.
Qed.

Lemma AgentWalletView_balance actor db balance :
  AgentWalletView actor db = inr balance →
  balance = wallet_balance actor db
  ∧ ∃ u, users db !! actor = Some u ∧ User.role u = User.AGENT.
Proof.
  unfold AgentWalletView.
  destruct (users db !! actor) as [u|]; [|done].
  destruct (bool_decide (User.role u = User.AGENT)) eqn:Hrole; simpl; [|done].
  apply bool_decide_eq_true in Hrole. intros [= <-]. eauto.
Qed.

Lemma AgentWalletView_same_users actor db db' balance :
  users db' = users db →
  AgentWalletView actor db = inr balance →
  AgentWalletView actor db' = inr (wallet_balance actor db').
Proof.
  intros Hu Hw. apply AgentWalletView_balance in Hw as (_ & u & Hactor & Hrole).
  unfold AgentWalletView. rewrite Hu, Hactor.
  by rewrite bool_decide_eq_true_2.
Qed.


Lemma request_then_approve_tables agent admin k db c :
  IsAuthenticated db agent = true →
  IsAdminUser db admin = true →
  commissions db !! k = Some c →
  Commission.agent c = agent →
  Commission.withdrawal_requested c = false →
  Commission.is_withdrawn c = false →
  let requested := (RequestWithdrawalView agent k db).1 in
  let approved := (ApproveWithdrawalView admin k requested).1 in
  commissions requested = <[k := Commission.set_flags true false c]> (commissions db)
  ∧ users requested = users db
  ∧ commissions approved = <[k := Commission.set_flags false true c]> (commissions db)
  ∧ users approved = users db.
Proof.
  intros Hagent Hadmin Hk Hown Hrq Hwd. cbv zeta.
  unfold RequestWithdrawalView, ApproveWithdrawalView.
  rewrite Hagent, Hk, Hown, Hrq, Hwd. simpl.
  rewrite (bool_decide_eq_true_2 (agent = agent)) by done. simpl.
  unfold IsAdminUser in *. simpl. rewrite Hadmin. simpl.
  rewrite lookup_insert_eq. simpl.
  split_and!; try done. by rewrite insert_insert_eq.
Qed.

(** X8. A withdrawal request leaves the agent's wallet as it is; the
    approval takes exactly the commission's amount out of it. *)
Theorem approval_takes_commission_out_of_wallet agent admin k db c balance :
  IsAuthenticated db agent = true →
  IsAdminUser db admin = true →
  commissions db !! k = Some c →
  Commission.agent c = agent →
  Commission.withdrawal_requested c = false →
  Commission.is_withdrawn c = false →
  AgentWalletView agent db = inr balance →
  let requested := (RequestWithdrawalView agent k db).1 in
  let approved := (ApproveWithdrawalView admin k requested).1 in
  (∃ balance', AgentWalletView agent requested = inr balance'
     ∧ (balance' == balance)%Q)
  ∧ (∃ balance', AgentWalletView agent approved = inr balance'
     ∧ (balance' == balance - Commission.amount c)%Q).
Proof.
  intros Hagent Hadmin Hk Hown Hrq Hwd Hwallet. cbv zeta.
  destruct (request_then_approve_tables agent admin k db c
              Hagent Hadmin Hk Hown Hrq Hwd) as (Hc1 & Hu1 & Hc2 & Hu2).
  assert (in_wallet agent c = true) as Hin.
  { unfold in_wallet. rewrite Hwd. by rewrite bool_decide_eq_true_2. }
  assert (objects_filter (in_wallet agent) (commissions db) !! k = Some c) as Hfk
    by by apply objects_filter_lookup.
  split.
  - eexists. split; [by eapply AgentWalletView_same_users|].
    apply AgentWalletView_balance in Hwallet as [-> _].
    unfold wallet_balance. rewrite Hc1. unfold objects_filter at 1.
    rewrite map_filter_insert_True.
    + by apply (table_sum_update _ k c).
    + simpl. unfold in_wallet. simpl. by rewrite bool_decide_eq_true_2.
  - eexists. split; [by eapply AgentWalletView_same_users|].
    apply AgentWalletView_balance in Hwallet as [-> _].
    unfold wallet_balance. rewrite Hc2. unfold objects_filter at 1.
    rewrite map_filter_insert_False.
    + rewrite map_filter_delete.
      rewrite (table_sum_delete _ k c Hfk). unfold objects_filter. ring.
    + simpl. unfold in_wallet. simpl. by rewrite andb_false_r.
Qed.

(** ** Gifts *)





(** X10. A gift made at time [now] is stored pending for its sender.  On
    a short-let listing the expiry job selects it exactly at the times
    later than [now] plus seven days; on any other listing it has no
    expiry and the job never selects it. *)
Theorem gift_expires_after_seven_days actor d now db db' pk :
  GiftCreateView actor d now db = (db', Created pk) →
  ∃ g property,
    gifts db !! pk = None
    ∧ gifts db' !! pk = Some g
    ∧ properties db !! GiftSerializer.property d = Some property
    ∧ Property.is_approved property = true
    ∧ Gift.status g = "pending"
    ∧ Gift.sender g = actor
    ∧ (Property.property_type property = "shortlet" →
       ∀ now', expirable db' now' g = true ↔ (now + timedelta_days 7 < now')%Z)
    ∧ (Property.property_type property ≠ "shortlet" →
       Gift.expires_at g = None ∧ ∀ now', expirable db' now' g = false).
Proof.
  unfold GiftCreateView.
  destruct (negb (IsAuthenticated db actor)); [done|].
  destruct (properties db !! GiftSerializer.property d) as [property|] eqn:Hp; [|done].
  destruct (_ && _); [done|].
  destruct (Property.is_approved property) eqn:Happ; simpl; [|done].
  intros [= <- <-]. eexists _, property.
  split_and!; [apply new_pk_fresh|apply lookup_insert_eq|done|done|done|done| |].
  - intros Hty now'. unfold expirable. simpl. rewrite Hp, Hty. simpl.
    rewrite andb_true_r. apply Z.ltb_lt.
  - intros Hty. apply String.eqb_neq in Hty. rewrite Hty. split; [done|].
    intros now'. unfold expirable. simpl. by rewrite Hp, Hty.
Qed.

(** ** The expiry job *)

(** The loop raises as soon as a row takes the conversion branch. *)
Lemma expire_loop_raises cfg db0 rows expired converted db :
  Exists (λ row, needs_conversion row.2 = true) rows →
  ∃ e, (expire_loop cfg db0 rows expired converted db).2 = Raised e.
Proof.
  revert expired converted db.
  induction rows as [|[pk gift] rest IH]; intros expired converted db Hex.
  - by apply Exists_nil in Hex.
  - destruct (needs_conversion gift) eqn:Hneeds;
      pose proof Hneeds as Htest; unfold needs_conversion in Htest;
      simpl; rewrite Htest.
    + repeat case_match; unfold escape; simpl; eauto.
    + apply IH. apply Exists_cons in Hex as [Hhere|Hrest]; [|done].
      simpl in Hhere. congruence.
Qed.

(** With no conversion to make, the loop stores each row as expired. *)
Lemma expire_loop_completes cfg db0 rows expired converted db :
  Forall (λ row, needs_conversion row.2 = false) rows →
  NoDup rows.*1 →
  let r := expire_loop cfg db0 rows expired converted db in
  r.2 = ExpiredGifts (expired + length rows) converted
  ∧ users r.1 = users db
  ∧ properties r.1 = properties db
  ∧ ∀ k, gifts r.1 !! k
         = match (list_to_map rows : gmap nat Gift.t) !! k with
           | Some gift => Some (Gift.set_status "expired" gift)
           | None => gifts db !! k
           end.
Proof.
  revert expired converted db.
  induction rows as [|[pk gift] rest IH]; intros expired converted db Hall Hnodup.
  - simpl. split_and!; try done. f_equal. lia.
  - apply Forall_cons in Hall as [Hhere Hrest]. simpl in Hhere.
    apply NoDup_cons in Hnodup as [Hpk Hnodup].
    pose proof Hhere as Htest. unfold needs_conversion in Htest.
    cbv zeta. simpl. rewrite Htest.
    destruct (IH (S expired) converted
                (with_gifts (<[pk := Gift.set_status "expired" gift]> (gifts db)) db)
                Hrest Hnodup) as (Hout & Hu & Hp & Hg).
    split_and!; [rewrite Hout; f_equal; lia|done|done|].
    intros k. rewrite Hg. simpl. destruct (decide (k = pk)) as [->|Hne].
    + rewrite lookup_insert_eq.
      rewrite (not_elem_of_list_to_map_1 _ _ Hpk). by rewrite lookup_insert_eq.
    + rewrite !lookup_insert_ne by done. done.
Qed.

(** X11. Run by an admin, the expiry job answers with counts exactly when
    none of the gifts it selects needs converting to credit; it then
    reports no conversion, stores every selected gift as expired and
    nothing else, and a second run at the same time finds nothing left.
    If any selected gift needs converting, the job raises. *)
Theorem expiry_job_answers_iff_nothing_to_convert cfg admin now db :
  IsAdminUser db admin = true →
  let selected := objects_filter (expirable db now) (gifts db) in
  let r := ExpireOldGiftsView cfg admin now db in
  (map_Forall (λ _ g, needs_conversion g = false) selected →
     r.2 = ExpiredGifts (size selected) 0
     ∧ users r.1 = users db
     ∧ (∀ k, gifts r.1 !! k
             = (λ g, if expirable db now g then Gift.set_status "expired" g else g)
               <$> gifts db !! k)
     ∧ ExpireOldGiftsView cfg admin now r.1 = (r.1, ExpiredGifts 0 0))
  ∧ (¬ map_Forall (λ _ g, needs_conversion g = false) selected →
     ∃ e, r.2 = Raised e)
  ∧ (∀ expired converted, r.2 = ExpiredGifts expired converted → converted = 0).
Proof.
  intros Hadmin. cbv zeta.
  set (selected := objects_filter (expirable db now) (gifts db)).
  assert (ExpireOldGiftsView cfg admin now db
          = expire_loop cfg db (map_to_list selected) 0 0 db) as Hview.
  { unfold ExpireOldGiftsView. by rewrite Hadmin. }
  assert (Forall (λ row : nat * Gift.t, needs_conversion row.2 = false)
            (map_to_list selected)
          ↔ map_Forall (λ _ g, needs_conversion g = false) selected) as Hforall.
  { rewrite Forall_forall. split.
    - intros Hall k g Hk. by apply (Hall (k, g)), elem_of_map_to_list.
    - intros Hall [k g] Hk%elem_of_map_to_list. by apply (Hall k). }
  assert (map_Forall (λ _ g, needs_conversion g = false) selected →
          (ExpireOldGiftsView cfg admin now db).2 = ExpiredGifts (size selected) 0
          ∧ users (ExpireOldGiftsView cfg admin now db).1 = users db
          ∧ properties (ExpireOldGiftsView cfg admin now db).1 = properties db
          ∧ ∀ k, gifts (ExpireOldGiftsView cfg admin now db).1 !! k
                 = (λ g, if expirable db now g then Gift.set_status "expired" g else g)
                   <$> gifts db !! k) as Hdone.
  { intros Hall%Hforall. rewrite Hview.
    destruct (expire_loop_completes cfg db (map_to_list selected) 0 0 db Hall
                (NoDup_fst_map_to_list _)) as (Hout & Hu & Hp & Hg).
    split_and!; [by rewrite Hout, length_map_to_list|done|done|].
    intros k. rewrite Hg, list_to_map_to_list.
    destruct (selected !! k) as [g|] eqn:Hk.
    - apply objects_filter_lookup in Hk as [Hk Hexp]. rewrite Hk. simpl.
      by rewrite Hexp.
    - destruct (gifts db !! k) as [g|] eqn:Hk'; [|done]. simpl.
      destruct (expirable db now g) eqn:Hexp; [|done].
      assert (selected !! k = Some g) as Hin by by apply objects_filter_lookup.
      congruence. }
  split_and!.
  - intros Hall. destruct (Hdone Hall) as (Hout & Hu & Hp & Hg).
    split_and!; [done|done|done|].
    unfold ExpireOldGiftsView at 1. unfold IsAdminUser in *. rewrite Hu, Hadmin. simpl.
    assert (objects_filter (expirable (ExpireOldGiftsView cfg admin now db).1 now)
              (gifts (ExpireOldGiftsView cfg admin now db).1) = ∅) as ->.
    { apply map_empty. intros k. apply map_lookup_filter_None.
      destruct (gifts _ !! k) as [g'|] eqn:Hk'; [right|by left].
      intros x [= <-]. simpl. rewrite Hg in Hk'.
      destruct (gifts db !! k) as [g|] eqn:Hk; [|done]. simpl in Hk'.
      injection Hk' as <-.
      destruct (expirable db now g) eqn:Hexp; unfold expirable; rewrite Hp; simpl.
      - by rewrite !andb_false_r.
      - unfold expirable in Hexp. by rewrite Hexp. }
    by rewrite map_to_list_empty.
  - intros Hnot. rewrite Hview. apply expire_loop_raises.
    rewrite <-Hforall in Hnot. apply not_Forall_Exists in Hnot; [|apply _].
    eapply Exists_impl; [done|]. simpl. intros row Hrow.
    by destruct (needs_conversion row.2).
  - intros expired converted Hout.
    destruct (decide (map_Forall (λ _ g, needs_conversion g = false) selected))
      as [Hall|Hnot].
    + destruct (Hdone Hall) as (Hout' & _). congruence.
    + rewrite Hview in Hout. rewrite <-Hforall in Hnot.
      apply not_Forall_Exists in Hnot; [|apply _].
      destruct (expire_loop_raises cfg db (map_to_list selected) 0 0 db) as [e He].
      * eapply Exists_impl; [done|]. simpl. intros row Hrow.
        by destruct (needs_conversion row.2).
      * congruence.
Qed.

(** ** Investments over time *)

(** Turns the boolean tests a view made on amounts into inequalities. *)
Ltac amounts :=
  repeat match goal with
    | H : negb _ = true |- _ => apply negb_true_iff in H
    | H : negb _ = false |- _ => apply negb_false_iff in H
    | H : Qle_bool _ _ = true |- _ => apply Qle_bool_iff in H
    | H : Qle_bool _ _ = false |- _ => apply Qle_bool_false in H
    | H : Qeq_bool _ _ = true |- _ => apply Qeq_bool_iff in H
    | H : Qeq_bool _ _ = false |- _ => apply Qeq_bool_false in H
    end.




(** ** Balances never go negative *)




Lemma handle_credits_nonnegative cfg r db :
  credits_nonnegative db → credits_nonnegative (handle cfg r db).1.
Proof.
  unfold credits_nonnegative. intros Hinv.
  destruct r; simpl.
  - unfold BookingCreateView, BookingCreateView_perform_create, Booking_create.
    view_cases; try done; (apply map_Forall_insert_2; [|done]); simpl;
      match goal with H : _ && _ = true |- _ => apply andb_true_iff in H as [_ H] end;
      amounts; lra.
  - unfold MarkBookingAsPaidView, Commission_create. by view_cases.
  - unfold CancelBookingView, cancel_and_refund, RefundLog_create. by view_cases.
  - unfold AdminCancelBookingView, cancel_and_refund, RefundLog_create. by view_cases.
  - unfold RequestWithdrawalView. by view_cases.
  - unfold ApproveWithdrawalView. by view_cases.
  - unfold GiftCreateView. by view_cases.
  - unfold GiftDecisionView. by view_cases.
  - unfold ExpireOldGiftsView. case_match; simpl; [done|].
    by rewrite expire_loop_users.
  - unfold ReassignGiftView. by view_cases.
  - unfold CreateInvestmentView, CreateInvestmentView_perform_create, Investment_create.
    view_cases; try done; simplify_eq; (apply map_Forall_insert_2; [|done]); simpl;
      try lra;
      match goal with Hu : users db !! _ = Some ?u |- _ => apply (Hinv _ _ Hu) end.
  - unfold TopUpInvestmentView.
    view_cases; try done; (apply map_Forall_insert_2; [|done]); simpl; lra.
  - unfold FlutterwaveWebhookView, webhook_match_investment.
    view_cases; try done; (apply map_Forall_insert_2; [|done]); simpl;
      match goal with Hu : users db !! _ = Some ?u |- _ => apply (Hinv _ _ Hu) end.
Qed.

(** X15. No account's shortlet credit ever goes negative: a booking is
    only debited when the credit covers it, and the investment views only
    set the credit to 5,000,000 or to zero. *)
Theorem shortlet_credit_never_negative cfg rs db :
  credits_nonnegative db → credits_nonnegative (run cfg rs db).
Proof.
  revert db. induction rs as [|r rs IH]; intros db Hinv; simpl; [done|].
  by apply IH, handle_credits_nonnegative.
Qed.

(** ** Membership *)

(** X16. [has_active_membership] never answers [True]: without a tier
    or an expiry it answers [False], and otherwise it compares a datetime
    with a date, which raises.  So it raises for every investor to whom
    [CreateInvestmentView] has just granted a membership. *)
Theorem membership_check_raises_for_members cfg actor d uuid now db db' pk today :
  CreateInvestmentView cfg actor d uuid now db = (db', Created pk) →
  (∀ u day, has_active_membership u day ≠ Some true)
  ∧ ∃ u, users db' !! actor = Some u
      ∧ is_Some (User.membership_tier u)
      ∧ User.membership_expires_at u = Some (now + timedelta_days 365)%Z
      ∧ has_active_membership u today = None.
Proof.
  intros Hcreate. split.
  - intros u day. unfold has_active_membership.
    destruct (User.membership_expires_at u); by repeat case_match.
  - unfold CreateInvestmentView, CreateInvestmentView_perform_create, Investment_create,
      escape in Hcreate.
    revert Hcreate. view_cases; intros; simplify_eq;
      eexists; (split; [apply lookup_insert_eq|]);
      (split_and!; [by eexists|done|by vm_compute]).
Qed.

(** ** Switching roles *)

Lemma SwitchUserRoleView_verified new_role a :
  User.is_verified (Account.user (SwitchUserRoleView new_role a).1) = true →
  (SwitchUserRoleView new_role a).1 = a.
Proof. unfold SwitchUserRoleView. by repeat case_match. Qed.

Lemma SwitchUserRoleView_staff new_role a :
  User.is_staff (Account.user (SwitchUserRoleView new_role a).1)
  = User.is_staff (Account.user a).
Proof. unfold SwitchUserRoleView. by repeat case_match. Qed.

Lemma SwitchUserRoleView_not_admin new_role a :
  User.role (Account.user a) ≠ User.ADMIN →
  User.role (Account.user (SwitchUserRoleView new_role a).1) ≠ User.ADMIN.
Proof.
  unfold SwitchUserRoleView, valid_role. intros Hrole.
  repeat case_match; simplify_eq; simpl; done.
Qed.

Lemma SwitchUserRoleView_history new_role a :
  let a' := (SwitchUserRoleView new_role a).1 in
  (Account.was_verified_as_agent a = true → Account.was_verified_as_agent a' = true)
  ∧ (Account.was_verified_as_investor a = true →
     Account.was_verified_as_investor a' = true)
  ∧ (a' = a
     ∨ ((User.role (Account.user a) = User.AGENT → User.is_verified (Account.user a) = true →
         Account.was_verified_as_agent a' = true)
        ∧ (User.role (Account.user a) = User.INVESTOR →
           User.is_verified (Account.user a) = true →
           Account.was_verified_as_investor a' = true))).
Proof.
  cbv zeta. unfold SwitchUserRoleView.
  destruct (valid_role new_role) as [role|]; simpl; [|by split_and!; [..|left]].
  destruct (bool_decide _) eqn:Hsame; simpl; [by split_and!; [..|left]|].
  split_and!.
  - intros ->. by case_match.
  - intros ->. by case_match.
  - right. split; intros -> ->; by rewrite bool_decide_eq_true_2.
Qed.

(** X17. Through any sequence of role switches: the account never
    becomes ADMIN and its staff flag never changes; it is still verified
    only if no switch changed anything; and an account that started as a
    verified agent (investor) is either untouched or carries
    [was_verified_as_agent] ([was_verified_as_investor]). *)
Theorem role_switches_unverify_and_remember requests a :
  let a' := switch_roles requests a in
  User.is_staff (Account.user a') = User.is_staff (Account.user a)
  ∧ (User.role (Account.user a) ≠ User.ADMIN → User.role (Account.user a') ≠ User.ADMIN)
  ∧ (User.is_verified (Account.user a') = true → a' = a)
  ∧ (User.role (Account.user a) = User.AGENT →
     User.is_verified (Account.user a) = true →
     a' = a ∨ Account.was_verified_as_agent a' = true)
  ∧ (User.role (Account.user a) = User.INVESTOR →
     User.is_verified (Account.user a) = true →
     a' = a ∨ Account.was_verified_as_investor a' = true).
Proof.
  cbv zeta. unfold switch_roles.
  induction requests as [|r requests IH] using rev_ind; simpl.
  - split_and!; auto.
  - rewrite foldl_app. simpl.
    set (mid := foldl (λ acc r0, (SwitchUserRoleView r0 acc).1) a requests) in *.
    destruct IH as (Hstaff & Hadmin & Hver & Hagent & Hinvestor).
    destruct (SwitchUserRoleView_history r mid) as (Hmono1 & Hmono2 & Hstep).
    split_and!.
    + by rewrite SwitchUserRoleView_staff.
    + intros Hrole. by apply SwitchUserRoleView_not_admin, Hadmin.
    + intros Hv. pose proof (SwitchUserRoleView_verified _ _ Hv) as Heq.
      rewrite Heq in Hv |- *. by apply Hver.
    + intros Hrole Hv.
      destruct (Hagent Hrole Hv) as [Hmid|Hflag]; [|right; by apply Hmono1].
      destruct Hstep as [Heq|[Hset _]]; [left; congruence|].
      right. apply Hset; by rewrite Hmid.
    + intros Hrole Hv.
      destruct (Hinvestor Hrole Hv) as [Hmid|Hflag]; [|right; by apply Hmono2].
      destruct Hstep as [Heq|[_ Hset]]; [left; congruence|].
      right. apply Hset; by rewrite Hmid.
Qed.

(** ** Promotion to admin *)

(** X18. Promotion by a staff member leaves the target a staff ADMIN
    who passes [IsAdminUser] (and verified, unless it already was a staff
    ADMIN), with credit and membership as before; it touches no other
    user row and no other table; and promoting again changes nothing. *)
Theorem promotion_grants_staff_once actor user_id db target :
  IsAdminUser db actor = true →
  users db !! user_id = Some target →
  let db' := (AssignAdminRoleView actor user_id db).1 in
  IsAdminUser db' user_id = true
  ∧ (∃ u, users db' !! user_id = Some u
       ∧ User.role u = User.ADMIN ∧ User.is_staff u = true
       ∧ (User.role target = User.ADMIN ∧ User.is_staff target = true
          ∨ User.is_verified u = true)
       ∧ User.shortlet_credit u = User.shortlet_credit target
       ∧ User.membership_tier u = User.membership_tier target)
  ∧ (∀ other, other ≠ user_id → users db' !! other = users db !! other)
  ∧ with_users (users db) db' = db
  ∧ (AssignAdminRoleView actor user_id db').1 = db'.
Proof.
  intros Hadmin Htarget. cbv zeta.
  assert (with_users (users db) db = db) as Hsame by by destruct db.
  unfold AssignAdminRoleView. rewrite Hadmin, Htarget. simpl.
  destruct (bool_decide (User.role target = User.ADMIN) && User.is_staff target)
    eqn:Halready; simpl.
  - rewrite Hadmin, Htarget, Halready. simpl.
    apply andb_true_iff in Halready as [Hrole%bool_decide_eq_true Hstaff].
    split_and!; [by unfold IsAdminUser; rewrite Htarget| |done|done|done].
    exists target. split_and!; auto.
  - unfold IsAdminUser in *. simpl. rewrite lookup_insert_eq. simpl.
    split_and!; [done| | |done|].
    + eexists. split; [done|]. simpl. split_and!; auto.
    + intros other Hother. by rewrite lookup_insert_ne.
    + destruct (decide (actor = user_id)) as [->|Hne].
      * rewrite lookup_insert_eq. simpl. by rewrite ?lookup_insert_eq.
      * rewrite lookup_insert_ne by done. rewrite Hadmin. simpl.
        by rewrite ?lookup_insert_eq.
Qed.

(** ** Listings *)

(** Nothing can be booked, gifted or invested in on an unapproved listing. *)
Lemma unapproved_listing_is_closed db pk p :
  properties db !! pk = Some p → Property.is_approved p = false →
  (∀ cfg who bd uuid, BookingSerializer.property bd = pk →
     (BookingCreateView cfg who bd uuid db).1 = db
     ∧ ∀ k, (BookingCreateView cfg who bd uuid db).2 ≠ Created k)
  ∧ (∀ who gd now, GiftSerializer.property gd = pk →
     (GiftCreateView who gd now db).1 = db
     ∧ ∀ k, (GiftCreateView who gd now db).2 ≠ Created k)
  ∧ (∀ cfg who vd uuid now, InvestmentSerializer.property vd = pk →
     (CreateInvestmentView cfg who vd uuid now db).1 = db
     ∧ ∀ k, (CreateInvestmentView cfg who vd uuid now db).2 ≠ Created k).
Proof.
  intros Hp Happ. split_and!.
  - intros cfg who bd uuid <-.
    unfold BookingCreateView, BookingCreateView_perform_create.
    rewrite Hp, Happ. simpl. by repeat case_match.
  - intros who gd now <-. unfold GiftCreateView.
    rewrite Hp, Happ. simpl. by repeat case_match.
  - intros cfg who vd uuid now <-.
    unfold CreateInvestmentView, CreateInvestmentView_perform_create.
    rewrite Hp, Happ. simpl. by repeat case_match.
Qed.

(** X19. A successful edit of a listing keeps its agent and withdraws
    its approval.  Until it is approved again no booking, gift or
    investment can be made on it, and an owner who is neither staff nor
    ADMIN can no longer reach it (a second edit answers 404); approval by
    a staff member reopens it. *)
Theorem edited_listing_is_closed_until_approved actor pk d db db' :
  PropertyViewSet_update actor pk d db = (db', Response 200 EmptyString) →
  ∃ old new,
    properties db !! pk = Some old
    ∧ properties db' !! pk = Some new
    ∧ users db' = users db
    ∧ Property.agent new = Property.agent old
    ∧ Property.price new = PropertySerializer.price d
    ∧ Property.is_approved new = false
    ∧ (∀ cfg who bd uuid, BookingSerializer.property bd = pk →
         (BookingCreateView cfg who bd uuid db').1 = db'
         ∧ ∀ k, (BookingCreateView cfg who bd uuid db').2 ≠ Created k)
    ∧ (∀ who gd now, GiftSerializer.property gd = pk →
         (GiftCreateView who gd now db').1 = db'
         ∧ ∀ k, (GiftCreateView who gd now db').2 ≠ Created k)
    ∧ (∀ cfg who vd uuid now, InvestmentSerializer.property vd = pk →
         (CreateInvestmentView cfg who vd uuid now db').1 = db'
         ∧ ∀ k, (CreateInvestmentView cfg who vd uuid now db').2 ≠ Created k)
    ∧ (∀ u d2, users db !! actor = Some u →
         User.is_staff u = false → User.role u ≠ User.ADMIN →
         PropertyViewSet_update actor pk d2 db' = (db', Response 404 "Not found."))
    ∧ (∀ admin u, users db !! admin = Some u → User.is_staff u = true →
         properties (PropertyViewSet_approve admin pk db').1 !! pk
         = Some (Property_set_is_approved true new)).
Proof.
  unfold PropertyViewSet_update, PropertyViewSet_get_object.
  destruct (properties db !! pk) as [old|] eqn:Hold; [|done].
  destruct (PropertyViewSet_get_queryset db actor old); [|done].
  destruct (negb (IsAgentOwnerOrAdmin db actor old)); [done|].
  destruct (negb (valid_property_type _)); [done|].
  intros [= <-]. eexists old, _.
  split_and!; [done|apply lookup_insert_eq|done|done|done|done|..].
  - eapply unapproved_listing_is_closed; [apply lookup_insert_eq|done].
  - eapply unapproved_listing_is_closed; [apply lookup_insert_eq|done].
  - eapply unapproved_listing_is_closed; [apply lookup_insert_eq|done].
  - intros u d2 Hu Hstaff Hrole.
    unfold PropertyViewSet_update, PropertyViewSet_get_object, PropertyViewSet_get_queryset.
    simpl. rewrite lookup_insert_eq, Hu, Hstaff. simpl.
    by rewrite bool_decide_eq_false_2.
  - intros admin u Hu Hstaff.
    unfold PropertyViewSet_approve, IsAgentOrReadOnly, PropertyViewSet_get_object,
      PropertyViewSet_get_queryset.
    simpl. rewrite Hu, Hstaff, orb_true_r. simpl.
    rewrite lookup_insert_eq. simpl. by rewrite lookup_insert_eq.
Qed.

(** X20. [get_permissions] guards the [approve] and [reject] actions
    with [IsAgentOrReadOnly], not with the [IsAdminUser] their decorators
    name.  So any agent can reject, that is delete, any approved listing,
    its own or not; while an agent who is not staff can approve nothing
    that is not approved already, and a customer is refused both. *)
Theorem any_agent_can_reject_an_approved_listing actor u pk p db :
  users db !! actor = Some u →
  User.is_staff u = false →
  properties db !! pk = Some p →
  (User.role u = User.AGENT →
     (Property.is_approved p = true →
        PropertyViewSet_reject actor pk db
        = (Property_delete pk db, Response 200 "property rejected and deleted ❌")
        ∧ properties (Property_delete pk db) !! pk = None)
     ∧ (Property.is_approved p = false →
        PropertyViewSet_approve actor pk db = (db, Response 404 "Not found.")
        ∧ PropertyViewSet_reject actor pk db = (db, Response 404 "Not found.")))
  ∧ (User.role u = User.CUSTOMER ∨ User.role u = User.INVESTOR →
     PropertyViewSet_approve actor pk db = (db, PermissionRefused)
     ∧ PropertyViewSet_reject actor pk db = (db, PermissionRefused)).
Proof.
  intros Hu Hstaff Hp.
  unfold PropertyViewSet_reject, PropertyViewSet_approve, IsAgentOrReadOnly,
    PropertyViewSet_get_object, PropertyViewSet_get_queryset.
  rewrite Hu, Hp, Hstaff. split.
  - intros ->. simpl. split; intros ->; [|done].
    split; [done|]. simpl. apply lookup_delete_eq.
  - intros [-> | ->]; done.
Qed.

(** X21. Deleting a listing takes its bookings, gifts and investments
    with it, and with each booking the commission it earned, withdrawn or
    not; the rows of every other listing stay, and what is left is
    consistent (every commission has its booking, no two active bookings
    of a listing overlap if none did). *)
Theorem deleting_a_listing_deletes_its_ledger pk db :
  let db' := Property_delete pk db in
  (∀ k b, bookings db' !! k = Some b ↔ bookings db !! k = Some b ∧ Booking.property b ≠ pk)
  ∧ (∀ k g, gifts db' !! k = Some g ↔ gifts db !! k = Some g ∧ Gift.property g ≠ pk)
  ∧ (∀ k i, investments db' !! k = Some i
            ↔ investments db !! k = Some i ∧ Investment.property i ≠ pk)
  ∧ (∀ k c b, commissions db !! k = Some c →
       bookings db !! Commission.booking c = Some b →
       commissions db' !! k = if decide (Booking.property b = pk) then None else Some c)
  ∧ commissions_have_bookings db'
  ∧ (no_double_booking db → no_double_booking db')
  ∧ users db' = users db.
Proof.
  cbv zeta. unfold Property_delete. simpl. split_and!.
  - intros k b. by rewrite map_lookup_filter_Some.
  - intros k g. by rewrite map_lookup_filter_Some.
  - intros k i. by rewrite map_lookup_filter_Some.
  - intros k c b Hk Hb. case_decide as Hpk.
    + apply map_lookup_filter_None. right. intros c' Hc'.
      rewrite Hk in Hc'. injection Hc' as <-. simpl.
      intros [b' Hb']. apply map_lookup_filter_Some in Hb' as [Hb' Hne].
      simpl in Hne. congruence.
    + apply map_lookup_filter_Some. split; [done|]. simpl. exists b.
      by apply map_lookup_filter_Some.
  - intros k c Hk. by apply map_lookup_filter_Some in Hk as [_ Hk].
  - intros Hinv i j a b Hi Hj.
    apply map_lookup_filter_Some in Hi as [Hi _].
    apply map_lookup_filter_Some in Hj as [Hj _].
    by apply (Hinv i j a b).
  - done.
Qed.

(** X22. A listing is created by an agent, an ADMIN or a staff member;
    it is stored under a new key for its creator and unapproved, so
    nothing can be booked, gifted or invested in on it until it is
    approved. *)
Theorem new_listing_starts_closed actor d db db' pk :
  PropertyViewSet_create actor d db = (db', Created pk) →
  properties db !! pk = None
  ∧ (∃ u, users db !! actor = Some u
       ∧ (User.role u = User.AGENT ∨ User.role u = User.ADMIN ∨ User.is_staff u = true))
  ∧ (∃ p, properties db' !! pk = Some p
       ∧ Property.agent p = actor ∧ Property.is_approved p = false
       ∧ Property.price p = PropertySerializer.price d)
  ∧ (∀ cfg who bd uuid, BookingSerializer.property bd = pk →
       (BookingCreateView cfg who bd uuid db').1 = db'
       ∧ ∀ k, (BookingCreateView cfg who bd uuid db').2 ≠ Created k)
  ∧ (∀ who gd now, GiftSerializer.property gd = pk →
       (GiftCreateView who gd now db').1 = db'
       ∧ ∀ k, (GiftCreateView who gd now db').2 ≠ Created k)
  ∧ (∀ cfg who vd uuid now, InvestmentSerializer.property vd = pk →
       (CreateInvestmentView cfg who vd uuid now db').1 = db'
       ∧ ∀ k, (CreateInvestmentView cfg who vd uuid now db').2 ≠ Created k).
Proof.
  unfold PropertyViewSet_create, IsAgentOrReadOnly.
  destruct (users db !! actor) as [u|] eqn:Hu; [|done].
  destruct (_ || _ || _) eqn:Hperm; [|done].
  destruct (negb (valid_property_type _)); [done|].
  intros [= <- <-].
  split_and!; [apply new_pk_fresh| | |..].
  - exists u. split; [done|].
    apply orb_true_iff in Hperm as [[H%bool_decide_eq_true|H%bool_decide_eq_true]%orb_true_iff|H];
      auto.
  - eexists. split; [apply lookup_insert_eq|done].
  - eapply unapproved_listing_is_closed; [apply lookup_insert_eq|done].
  - eapply unapproved_listing_is_closed; [apply lookup_insert_eq|done].
  - eapply unapproved_listing_is_closed; [apply lookup_insert_eq|done].
Qed.

(** X28. Without staff or ADMIN rights, a listing is destroyed by its
    owner only, and only while it is approved: the owner of a listing that
    awaits approval gets 404, anyone else an approved listing's refusal.
    The destruction removes the listing and touches no user. *)
Theorem only_owner_destroys_once_approved actor u pk p db :
  users db !! actor = Some u →
  User.is_staff u = false → User.role u ≠ User.ADMIN →
  properties db !! pk = Some p →
  (Property.is_approved p = false →
     PropertyViewSet_destroy actor pk db = (db, Response 404 "Not found."))
  ∧ (Property.is_approved p = true → Property.agent p ≠ actor →
       PropertyViewSet_destroy actor pk db = (db, PermissionRefused))
  ∧ (Property.is_approved p = true → Property.agent p = actor →
       PropertyViewSet_destroy actor pk db = (Property_delete pk db, Response 204 EmptyString)
       ∧ properties (Property_delete pk db) !! pk = None
       ∧ users (Property_delete pk db) = users db).
Proof.
  intros Hu Hstaff Hrole Hp.
  unfold PropertyViewSet_destroy, PropertyViewSet_get_object, PropertyViewSet_get_queryset,
    IsAgentOwnerOrAdmin.
  rewrite Hu, Hp, Hstaff. simpl.
  rewrite (bool_decide_eq_false_2 (User.role u = User.ADMIN)) by done. simpl.
  split_and!.
  - by intros ->.
  - intros -> Hother. by rewrite bool_decide_eq_false_2.
  - intros -> Hown. rewrite bool_decide_eq_true_2 by done. simpl.
    split_and!; [done| |done]. apply lookup_delete_eq.
Qed.

(** ** Agent verification *)

(** A verification request keeps every user row up to [is_verified] and
    every verification up to its decision fields. *)
Lemma handle_verification_kept cfg r s :
  (∀ a u, users (tables s) !! a = Some u →
     ∃ u', users (tables (handle_verification cfg r s).1) !! a = Some u'
           ∧ User.role u' = User.role u ∧ User.is_staff u' = User.is_staff u)
  ∧ (∀ k v, agent_verifications s !! k = Some v →
       ∃ v', agent_verifications (handle_verification cfg r s).1 !! k = Some v'
             ∧ AgentVerification.agent v' = AgentVerification.agent v).
Proof.
  split.
  - intros a u Ha.
    destruct r; simpl;
      unfold AgentVerificationUploadView, AgentVerificationApprovalView,
        RejectAgentVerificationView;
      repeat case_match; simpl in *; eauto;
      match goal with
      | |- context [<[?i := _]> _ !! a] =>
        destruct (decide (i = a)) as [Heq|];
          [rewrite Heq in *; rewrite lookup_insert_eq; simplify_eq; eauto
          |rewrite lookup_insert_ne by done; eauto]
      end.
  - intros k v Hk.
    destruct r; simpl;
      unfold AgentVerificationUploadView, AgentVerificationApprovalView,
        RejectAgentVerificationView;
      repeat case_match; simpl in *; eauto;
      match goal with
      | |- context [<[?i := _]> _ !! k] =>
        destruct (decide (i = k)) as [Heq|];
          [rewrite Heq in *; rewrite lookup_insert_eq; simplify_eq; eauto
          |rewrite lookup_insert_ne by done; eauto]
      end.
    all: by rewrite new_pk_fresh in Hk.
Qed.

Lemma run_verifications_kept cfg rs s :
  (∀ a u, users (tables s) !! a = Some u →
     ∃ u', users (tables (run_verifications cfg rs s)) !! a = Some u'
           ∧ User.role u' = User.role u ∧ User.is_staff u' = User.is_staff u)
  ∧ (∀ k v, agent_verifications s !! k = Some v →
       ∃ v', agent_verifications (run_verifications cfg rs s) !! k = Some v'
             ∧ AgentVerification.agent v' = AgentVerification.agent v).
Proof.
  revert s. induction rs as [|r rs IH]; intros s; simpl; [split; eauto|].
  destruct (handle_verification_kept cfg r s) as [Hu Hv].
  destruct (IH (handle_verification cfg r s).1) as [Hu' Hv'].
  split.
  - intros a u Ha. destruct (Hu a u Ha) as (u1 & H1 & Hr1 & Hs1).
    destruct (Hu' a u1 H1) as (u2 & H2 & Hr2 & Hs2).
    exists u2. split_and!; [done|congruence|congruence].
  - intros k v Hk. destruct (Hv k v Hk) as (v1 & H1 & Ha1).
    destruct (Hv' k v1 H1) as (v2 & H2 & Ha2).
    exists v2. split; [done|congruence].
Qed.

(** X23. An agent submits documents once.  After an accepted upload,
    whatever approvals, rejections and uploads follow, the record is
    still held for that agent and a further upload by the agent is
    refused with nothing stored: a rejection is not followed by a second
    submission. *)
Theorem documents_are_submitted_once cfg actor s s1 pk rs :
  AgentVerificationUploadView actor s = (s1, Created pk) →
  let s2 := run_verifications cfg rs s1 in
  agent_verifications s !! pk = None
  ∧ agent_verifications s1 !! pk = Some (AgentVerification.mk actor false None false)
  ∧ (∃ v, agent_verifications s2 !! pk = Some v ∧ AgentVerification.agent v = actor)
  ∧ AgentVerificationUploadView actor s2
    = (s2, ValidationError "You’ve already submitted your documents.").
Proof.
  intros Hup. cbv zeta. unfold AgentVerificationUploadView in Hup.
  destruct (users (tables s) !! actor) as [user|] eqn:Hu; [|done].
  destruct (bool_decide (User.role user = User.AGENT)) eqn:Hrole; simpl in Hup; [|done].
  destruct (objects_exists _ _); [done|].
  injection Hup as <- <-. apply bool_decide_eq_true in Hrole.
  destruct (run_verifications_kept cfg rs
              (save_verification (new_pk (agent_verifications s))
                 (AgentVerification.mk actor false None false) s)) as [Hu' Hv'].
  destruct (Hu' actor user Hu) as (u2 & Hu2 & Hr2 & _).
  destruct (Hv' (new_pk (agent_verifications s))
              (AgentVerification.mk actor false None false)) as (v2 & Hv2 & Ha2).
  { simpl. apply lookup_insert_eq. }
  split_and!.
  - apply new_pk_fresh.
  - simpl. apply lookup_insert_eq.
  - by exists v2.
  - unfold AgentVerificationUploadView. rewrite Hu2.
    rewrite bool_decide_eq_true_2 by congruence. simpl.
    assert (objects_exists (AgentVerification_of actor) _ = true) as ->; [|done].
    apply objects_exists_true. exists (new_pk (agent_verifications s)), v2.
    split; [done|]. unfold AgentVerification_of. by apply bool_decide_eq_true.
Qed.

(** X24. An approval and a rejection of one verification leave the same
    record in either order, approved and rejected at once with the reason
    kept, since neither clears what the other set; the agent's own flag
    follows whichever came last. *)
Theorem approval_and_rejection_in_either_order cfg admin k reason s v agent :
  IsAdminUser (tables s) admin = true →
  agent_verifications s !! k = Some v →
  users (tables s) !! AgentVerification.agent v = Some agent →
  reason ≠ EmptyString →
  let approve := AgentVerificationApprovalView cfg admin k in
  let reject := RejectAgentVerificationView cfg admin k (Some reason) in
  let final := AgentVerification.mk (AgentVerification.agent v) true (Some reason) true in
  agent_verifications (reject (approve s).1).1 = <[k := final]> (agent_verifications s)
  ∧ agent_verifications (approve (reject s).1).1 = <[k := final]> (agent_verifications s)
  ∧ users (tables (reject (approve s).1).1)
    = <[AgentVerification.agent v := User.set_is_verified false agent]> (users (tables s))
  ∧ users (tables (approve (reject s).1).1)
    = <[AgentVerification.agent v := User.set_is_verified true agent]> (users (tables s))
  ∧ (∃ message, (reject s).2 = Response 200 message)
  ∧ RejectAgentVerificationView cfg admin k None s
    = (s, Response 400 "A rejection reason is required")
  ∧ RejectAgentVerificationView cfg admin k (Some EmptyString) s
    = (s, Response 400 "A rejection reason is required").
Proof.
  intros Hadmin Hk Hagent Hreason. cbv zeta.
  assert (∀ b, IsAdminUser
                 (with_users (<[AgentVerification.agent v := User.set_is_verified b agent]>
                                (users (tables s))) (tables s)) admin = true) as Hadmin'.
  { intros b. unfold IsAdminUser in *. simpl.
    destruct (decide (AgentVerification.agent v = admin)) as [Heq|Hne].
    - rewrite Heq in *. rewrite lookup_insert_eq. simpl. by rewrite Hagent in Hadmin.
    - by rewrite lookup_insert_ne. }
  unfold AgentVerificationApprovalView, RejectAgentVerificationView.
  rewrite Hadmin. simpl. rewrite Hk. simpl. rewrite Hagent. simpl.
  destruct reason as [|c reason]; [done|]. simpl.
  rewrite !Hadmin'. simpl. rewrite !lookup_insert_eq. simpl.
  rewrite ?lookup_insert_eq. simpl.
  rewrite ?insert_insert_eq. split_and!; try done. by eexists.
Qed.

(** ** The dashboard *)

Lemma set_shortlet_credit_member c u : is_member u → is_member (User.set_shortlet_credit c u).
Proof. done. Qed.

Lemma set_membership_member tier expires u :
  tier ≠ EmptyString → is_member (User.set_membership tier expires u).
Proof. intros Htier. split; simpl; [by exists tier|by eexists]. Qed.

(** No request ends a membership. *)
Lemma handle_member_kept cfg r db a u :
  users db !! a = Some u → is_member u →
  ∃ u', users (handle cfg r db).1 !! a = Some u' ∧ is_member u'.
Proof.
  intros Ha Hm.
  assert (∀ (i : nat) (x : User.t) (m : gmap nat User.t),
            m !! a = Some u → (i = a → is_member x) →
            ∃ u', <[i := x]> m !! a = Some u' ∧ is_member u') as Hins.
  { intros i x m Hlook Hx. destruct (decide (i = a)) as [->|Hne].
    - rewrite lookup_insert_eq. eauto.
    - rewrite lookup_insert_ne by done. eauto. }
  destruct r; simpl.
  - unfold BookingCreateView, BookingCreateView_perform_create, Booking_create.
    view_cases; eauto; apply Hins; try done; intros ->; simplify_eq;
      by apply set_shortlet_credit_member.
  - unfold MarkBookingAsPaidView, Commission_create. view_cases; eauto.
  - unfold CancelBookingView, cancel_and_refund, RefundLog_create. view_cases; eauto.
  - unfold AdminCancelBookingView, cancel_and_refund, RefundLog_create. view_cases; eauto.
  - unfold RequestWithdrawalView. view_cases; eauto.
  - unfold ApproveWithdrawalView. view_cases; eauto.
  - unfold GiftCreateView. view_cases; eauto.
  - unfold GiftDecisionView. view_cases; eauto.
  - unfold ExpireOldGiftsView. case_match; simpl; [eauto|].
    rewrite expire_loop_users by done. eauto.
  - unfold ReassignGiftView. view_cases; eauto.
  - unfold CreateInvestmentView, CreateInvestmentView_perform_create, Investment_create.
    view_cases; eauto; simplify_eq; apply Hins; try done; intros _;
      first [by apply set_membership_member
            |apply set_shortlet_credit_member; by apply set_membership_member].
  - unfold TopUpInvestmentView.
    view_cases; eauto; apply Hins; try done; intros _;
      first [by apply set_membership_member
            |apply set_shortlet_credit_member; by apply set_membership_member].
  - unfold FlutterwaveWebhookView, webhook_match_investment.
    view_cases; eauto; apply Hins; try done; intros _;
      first [by apply set_membership_member
            |apply set_shortlet_credit_member; by apply set_membership_member].
Qed.

Lemma run_member_kept cfg rs db a u :
  users db !! a = Some u → is_member u →
  ∃ u', users (run cfg rs db) !! a = Some u' ∧ is_member u'.
Proof.
  revert db u. induction rs as [|r rs IH]; intros db u Ha Hm; simpl; [by eauto|].
  destruct (handle_member_kept cfg r db a u Ha Hm) as (u1 & H1 & Hm1).
  by apply (IH _ u1).
Qed.

Lemma DashboardView_member actor today db u :
  users db !! actor = Some u → is_member u → DashboardView actor today db = TypeError.
Proof.
  intros Hu [(tier & Htier & Hne) [expires Hexp]].
  unfold DashboardView, has_active_membership. rewrite Hu, Htier, Hexp. simpl.
  destruct tier; [done|].
  by rewrite bool_decide_eq_false_2.
Qed.

(** X25. The dashboard is lost to every member.  From the request that
    makes a user an investor on, whatever requests follow, the dashboard
    of that user raises [TypeError]; and a dashboard that does answer
    never reports an expiry date or an active membership. *)
Theorem dashboard_raises_for_every_investor cfg actor d uuid now db db' pk :
  CreateInvestmentView cfg actor d uuid now db = (db', Created pk) →
  (∀ rs today, DashboardView actor today (run cfg rs db') = TypeError)
  ∧ (∀ who today store data m,
       DashboardView who today store = Data (Dashboard.mk data (Some m)) →
       Dashboard.membership_expires_at m = None
       ∧ Dashboard.membership_active m = false).
Proof.
  intros Hcreate. split.
  - assert (∃ u, users db' !! actor = Some u ∧ is_member u) as (u & Hu & Hm).
    { unfold CreateInvestmentView, CreateInvestmentView_perform_create, Investment_create,
        escape in Hcreate.
      revert Hcreate. view_cases; intros; simplify_eq;
        eexists; (split; [apply lookup_insert_eq|]);
        first [by apply set_membership_member
              |apply set_shortlet_credit_member; by apply set_membership_member]. }
    intros rs today.
    destruct (run_member_kept cfg rs db' actor u Hu Hm) as (u' & Hu' & Hm').
    by eapply DashboardView_member.
  - intros who today store data m. unfold DashboardView, has_active_membership.
    destruct (users store !! who) as [u|]; [|done].
    destruct (User.membership_tier u) as [[|c tier]|]; [done| |done].
    destruct (User.membership_expires_at u) as [expires|]; simpl.
    + done.
    + rewrite ?orb_true_r. by intros [= <- <-].
Qed.

Lemma DashboardView_same_users actor today db db' data m :
  DashboardView actor today db = Data (Dashboard.mk data m) →
  users db' = users db →
  ∃ u, users db !! actor = Some u
    ∧ data = Dashboard_role_data actor u db
    ∧ DashboardView actor today db'
      = Data (Dashboard.mk (Dashboard_role_data actor u db') m).
Proof.
  unfold DashboardView. intros Hd ->.
  destruct (users db !! actor) as [u|]; [|done].
  exists u. split; [done|]. revert Hd.
  repeat case_match; intros; by simplify_eq.
Qed.

(** The agent's branch of the dashboard when one of the agent's
    commissions, not pending before, is saved with other flags. *)
Lemma agent_data_update agent u db db' k c c' :
  User.role u = User.AGENT →
  properties db' = properties db →
  commissions db' = <[k := c']> (commissions db) →
  commissions db !! k = Some c →
  Commission.agent c = agent → Commission.agent c' = agent →
  Commission.amount c' = Commission.amount c →
  pending_withdrawal c = false →
  ∃ n total pending total',
    Dashboard_role_data agent u db = Dashboard.AgentData n total pending
    ∧ Dashboard_role_data agent u db'
      = Dashboard.AgentData n total' (if pending_withdrawal c' then S pending else pending)
    ∧ (total' == total)%Q.
Proof.
  intros Hrole Hp Hc Hk Hown Hown' Hamount Hpending.
  unfold Dashboard_role_data. rewrite Hrole, Hp, Hc.
  do 4 eexists. split; [reflexivity|].
  unfold objects_filter at 2 4.
  rewrite map_filter_insert_True
    by (simpl; unfold Commission_of_agent; by rewrite bool_decide_eq_true_2).
  fold (objects_filter (Commission_of_agent agent) (commissions db)).
  assert (objects_filter (Commission_of_agent agent) (commissions db) !! k = Some c) as Hin.
  { apply objects_filter_lookup. split; [done|].
    unfold Commission_of_agent. by rewrite bool_decide_eq_true_2. }
  assert (objects_filter pending_withdrawal
            (objects_filter (Commission_of_agent agent) (commissions db)) !! k = None)
    as Hout.
  { apply map_lookup_filter_None. right. intros x Hx. simpl.
    rewrite Hin in Hx. injection Hx as <-. by rewrite Hpending. }
  split.
  - f_equal. unfold objects_filter at 1.
    destruct (pending_withdrawal c') eqn:Hc'.
    + rewrite map_filter_insert_True by done.
      by rewrite map_size_insert_None.
    + rewrite map_filter_insert_False by (simpl; by rewrite Hc').
      rewrite map_filter_delete. by rewrite delete_id.
  - unfold sum_of. by apply (table_sum_update _ k c c').
Qed.

(** X26. The agent's dashboard counts a withdrawal while it is pending
    and forgets it on approval, but its commission total is the same
    before the request, while it is pending and after the approval: the
    total keeps what has been withdrawn, unlike the wallet. *)
Theorem dashboard_total_keeps_withdrawn_commissions
    agent admin k today db c n total pending m :
  IsAdminUser db admin = true →
  commissions db !! k = Some c →
  Commission.agent c = agent →
  Commission.withdrawal_requested c = false →
  Commission.is_withdrawn c = false →
  DashboardView agent today db
  = Data (Dashboard.mk (Dashboard.AgentData n total pending) m) →
  let requested := (RequestWithdrawalView agent k db).1 in
  let approved := (ApproveWithdrawalView admin k requested).1 in
  (∃ total',
     DashboardView agent today requested
     = Data (Dashboard.mk (Dashboard.AgentData n total' (S pending)) m)
     ∧ (total' == total)%Q)
  ∧ (∃ total',
       DashboardView agent today approved
       = Data (Dashboard.mk (Dashboard.AgentData n total' pending) m)
       ∧ (total' == total)%Q).
Proof.
  intros Hadmin Hk Hown Hrq Hwd Hdash.
  assert (IsAuthenticated db agent = true) as Hauth.
  { unfold DashboardView in Hdash. unfold IsAuthenticated.
    destruct (users db !! agent); [|done]. by apply bool_decide_eq_true_2. }
  destruct (request_then_approve_tables agent admin k db c Hauth Hadmin Hk Hown Hrq Hwd)
    as (Hc1 & Hu1 & Hc2 & Hu2).
  cbv zeta in *.
  assert (∀ db1, properties (RequestWithdrawalView agent k db1).1 = properties db1) as Hp1.
  { intros db1. unfold RequestWithdrawalView. by view_cases. }
  assert (∀ db1, properties (ApproveWithdrawalView admin k db1).1 = properties db1) as Hp2.
  { intros db1. unfold ApproveWithdrawalView. by view_cases. }
  destruct (DashboardView_same_users _ _ _ _ _ _ Hdash Hu1) as (u & Hu & Hdata & Hd1).
  destruct (DashboardView_same_users _ _ _ _ _ _ Hdash Hu2) as (u' & Hu' & _ & Hd2).
  assert (u' = u) as -> by congruence.
  assert (User.role u = User.AGENT) as Hrole.
  { unfold Dashboard_role_data in Hdata. by destruct (User.role u). }
  assert (pending_withdrawal c = false) as Hpc.
  { unfold pending_withdrawal. by rewrite Hrq. }
  split.
  - destruct (agent_data_update agent u db _ k c (Commission.set_flags true false c)
                Hrole (Hp1 db) Hc1 Hk Hown Hown eq_refl Hpc)
      as (n1 & t1 & p1 & t1' & Hbefore & Hafter & Heq).
    rewrite Hbefore in Hdata. injection Hdata as -> -> ->.
    exists t1'. split; [|done]. by rewrite Hd1, Hafter.
  - destruct (agent_data_update agent u db _ k c (Commission.set_flags false true c)
                Hrole (eq_trans (Hp2 _) (Hp1 db)) Hc2 Hk Hown Hown eq_refl Hpc)
      as (n1 & t1 & p1 & t1' & Hbefore & Hafter & Heq).
    rewrite Hbefore in Hdata. injection Hdata as -> -> ->.
    exists t1'. split; [|done]. by rewrite Hd2, Hafter.
Qed.

(** ** Refund logs *)

(** X27. The refund a guest's cancellation of a paid booking logs is
    added to the list [RefundLogView] gives that guest and to the list it
    gives staff and admins, and to no other user's list. *)
Theorem refund_is_listed_for_guest_and_staff cfg guest k today db b property u :
  users db !! guest = Some u →
  User.is_staff u = false → User.role u ≠ User.ADMIN →
  bookings db !! k = Some b →
  Booking.user b = guest →
  Booking.is_cancelled b = false →
  Booking.is_paid b = true →
  (today < Booking.start_date b)%Z →
  properties db !! Booking.property b = Some property →
  let db' := (CancelBookingView cfg guest k today db).1 in
  let pk := new_pk (refund_logs db) in
  let log :=
    RefundLog.mk guest (Booking.total_price b)
      ("Cancelled short-let booking for '" +:+ Property.title property +:+ "'") in
  (∃ mine,
     RefundLogView_get_queryset guest db = Some mine
     ∧ mine !! pk = None
     ∧ RefundLogView_get_queryset guest db' = Some (<[pk := log]> mine))
  ∧ (∀ other o, other ≠ guest → users db !! other = Some o →
       User.is_staff o = false → User.role o ≠ User.ADMIN →
       RefundLogView_get_queryset other db' = RefundLogView_get_queryset other db)
  ∧ (∀ admin a, users db !! admin = Some a →
       User.is_staff a = true ∨ User.role a = User.ADMIN →
       RefundLogView_get_queryset admin db = Some (refund_logs db)
       ∧ RefundLogView_get_queryset admin db' = Some (<[pk := log]> (refund_logs db))).
Proof.
  intros Hu Hstaff Hrole Hk Hown Hactive Hpaid Hearly Hp. cbv zeta.
  assert (users (CancelBookingView cfg guest k today db).1 = users db
          ∧ refund_logs (CancelBookingView cfg guest k today db).1
            = <[new_pk (refund_logs db) :=
                  RefundLog.mk guest (Booking.total_price b)
                    ("Cancelled short-let booking for '" +:+ Property.title property
                     +:+ "'")]> (refund_logs db)) as [Hu' Hlogs].
  { unfold CancelBookingView, cancel_and_refund, RefundLog_create, IsAuthenticated.
    rewrite Hu, Hk, Hown, Hactive, Hpaid. simpl.
    rewrite ?bool_decide_eq_true_2 by eauto. simpl.
    assert ((Booking.start_date b <=? today)%Z = false) as -> by lia.
    simpl. rewrite ?Hp. simpl. done. }
  unfold RefundLogView_get_queryset. rewrite Hu', Hlogs, Hu, Hstaff. simpl.
  rewrite (bool_decide_eq_false_2 (User.role u = User.ADMIN)) by done.
  split_and!.
  - eexists. split; [reflexivity|]. split.
    + apply map_lookup_filter_None. left. apply new_pk_fresh.
    + unfold objects_filter. rewrite map_filter_insert_True; [done|].
      simpl. by rewrite bool_decide_eq_true_2.
  - intros other o Hother Ho Hso Hro. rewrite Ho, Hso. simpl.
    rewrite (bool_decide_eq_false_2 (User.role o = User.ADMIN)) by done.
    unfold objects_filter. rewrite map_filter_insert_not'; [done| |].
    + simpl. rewrite bool_decide_eq_false_2 by congruence. done.
    + intros y Hy. by rewrite new_pk_fresh in Hy.
  - intros admin a Ha Hor. rewrite Ha.
    assert (User.is_staff a || bool_decide (User.role a = User.ADMIN) = true) as ->.
    { destruct Hor as [->| ->]; [done|]. by rewrite orb_true_r. }
    done.
Qed.

(** * Instances of the further properties on the sample stores *)

Lemma cancel_booking_logs_refund_keeps_credit_witness :
  users (CancelBookingView django_defaults 3 1 50 Sample.settled_store).1
  = users Sample.settled_store
  ∧ size (refund_logs (CancelBookingView django_defaults 3 1 50 Sample.settled_store).1)
    = 1.
Proof.
  destruct (cancel_booking_logs_refund_keeps_credit django_defaults 3 1 50
              Sample.settled_store (Booking.set_is_paid true Sample.unpaid_stay)
              Sample.flat)
    as (_ & _ & Hu & _ & Hlog & _); [by vm_compute..|].
  split; [exact Hu|]. rewrite Hlog by done. by vm_compute.
Defined.

Lemma started_stay_only_admin_cancels_witness :
  CancelBookingView django_defaults 3 1 100 Sample.settled_store
  = (Sample.settled_store,
     Response 400 "You cannot cancel a booking that has already started.")
  ∧ ∃ message,
      (AdminCancelBookingView django_defaults 1 1 Sample.settled_store).2
      = Response 200 message.
Proof.
  destruct (started_stay_only_admin_cancels django_defaults 3 1 1 100
              Sample.settled_store (Booking.set_is_paid true Sample.unpaid_stay)
              Sample.flat)
    as (Hself & (Hadmin & _)); [by vm_compute..|].
  split; [exact Hself|exact Hadmin].
Defined.

Lemma cancelled_dates_cannot_be_rebooked_witness :
  BookingCreateView django_defaults 5 Sample.three_nights "again" Cases.cancelled_store
  = (Cases.cancelled_store,
     ValidationError "The fields property, start_date, end_date must make a unique set.").
Proof.
  apply (cancelled_dates_cannot_be_rebooked django_defaults 5 Sample.traveller
           Sample.flat 1 "again" false Cases.cancelled_store
           (Booking.set_is_cancelled true (Booking.set_is_paid true Sample.unpaid_stay)));
    by vm_compute.
Defined.


Lemma withdrawal_takes_request_then_approval_witness :
  ApproveWithdrawalView 1 0 Sample.settled_store
  = (Sample.settled_store, Response 404 "No such pending withdrawal")
  ∧ (Commission.is_withdrawn <$> commissions Cases.withdrawn_store !! 0) = Some true.
Proof.
  destruct (withdrawal_takes_request_then_approval 2 1 3 0 Sample.settled_store
              (Commission.mk 2 1 (30000 * (10 # 100)) false false))
    as (Hearly & _ & _ & _ & _ & Hc & _); [by vm_compute..|].
  split; [exact Hearly|].
  unfold Cases.withdrawn_store. rewrite Hc. by rewrite lookup_insert_eq.
Defined.



Lemma approval_takes_commission_out_of_wallet_witness :
  ∃ balance',
    AgentWalletView 2 Cases.withdrawn_store = inr balance'
    ∧ (balance' == 0 + 30000 * (10 # 100) - 30000 * (10 # 100))%Q.
Proof.
  destruct (approval_takes_commission_out_of_wallet 2 1 0 Sample.settled_store
              (Commission.mk 2 1 (30000 * (10 # 100)) false false)
              (0 + 30000 * (10 # 100))%Q)
    as (_ & Hout); [by vm_compute..|].
  exact Hout.
Defined.


Lemma gift_expires_after_seven_days_witness :
  ∃ g property,
    gifts Sample.store !! 0 = None
    ∧ gifts (GiftCreateView 3 Cases.villa_for_friend 0 Sample.store).1 !! 0 = Some g
    ∧ properties Sample.store !! 2 = Some property
    ∧ Property.is_approved property = true
    ∧ Gift.status g = "pending"
    ∧ Gift.sender g = 3
    ∧ (Property.property_type property = "shortlet" →
       ∀ now', expirable (GiftCreateView 3 Cases.villa_for_friend 0 Sample.store).1 now' g
               = true ↔ (0 + timedelta_days 7 < now')%Z)
    ∧ (Property.property_type property ≠ "shortlet" →
       Gift.expires_at g = None
       ∧ ∀ now', expirable (GiftCreateView 3 Cases.villa_for_friend 0 Sample.store).1 now' g
                 = false).
Proof.
  apply (gift_expires_after_seven_days 3 Cases.villa_for_friend 0 Sample.store
           (GiftCreateView 3 Cases.villa_for_friend 0 Sample.store).1 0).
  by vm_compute.
Defined.

Lemma expiry_job_answers_iff_nothing_to_convert_witness :
  (ExpireOldGiftsView django_defaults 1 (timedelta_days 8) Cases.reassigned_store).2
  = ExpiredGifts
      (size (objects_filter (expirable Cases.reassigned_store (timedelta_days 8))
               (gifts Cases.reassigned_store))) 0.
Proof.
  destruct (expiry_job_answers_iff_nothing_to_convert django_defaults 1
              (timedelta_days 8) Cases.reassigned_store) as (Hdone & _ & _);
    [by vm_compute|].
  apply Hdone. apply (bool_decide_unpack _). by vm_compute.
Defined.




Lemma sample_credits_nonnegative : credits_nonnegative Sample.store.
Proof.
  unfold credits_nonnegative. simpl. unfold Sample.people.
  repeat (apply map_Forall_insert_2; [by vm_compute|]). apply map_Forall_empty.
Qed.


Lemma shortlet_credit_never_negative_witness :
  credits_nonnegative (run django_defaults Cases.busy_day Sample.store).
Proof.
  apply (shortlet_credit_never_negative django_defaults Cases.busy_day Sample.store).
  apply sample_credits_nonnegative.
Defined.

Lemma membership_check_raises_for_members_witness :
  ∃ u, users Sample.invested_store !! 4 = Some u
    ∧ is_Some (User.membership_tier u)
    ∧ User.membership_expires_at u = Some (0 + timedelta_days 365)%Z
    ∧ has_active_membership u 400 = None.
Proof.
  apply (membership_check_raises_for_members django_defaults 4 Sample.installment_plan
           "first" 0 Sample.store Sample.invested_store 0 400).
  by vm_compute.
Defined.

Lemma promotion_grants_staff_once_witness :
  IsAdminUser (AssignAdminRoleView 1 3 Sample.store).1 3 = true.
Proof.
  apply (promotion_grants_staff_once 1 3 Sample.store Sample.guest); by vm_compute.
Defined.

Lemma edited_listing_is_closed_until_approved_witness :
  ∃ old new,
    properties Sample.store !! 1 = Some old
    ∧ properties (PropertyViewSet_update 2 1 Cases.repriced_flat Sample.store).1 !! 1
      = Some new
    ∧ Property.price new = 12000%Q
    ∧ Property.is_approved new = false.
Proof.
  destruct (edited_listing_is_closed_until_approved 2 1 Cases.repriced_flat Sample.store
              (PropertyViewSet_update 2 1 Cases.repriced_flat Sample.store).1)
    as (old & new & Hold & Hnew & _ & _ & Hprice & Happ & _); [by vm_compute|].
  exists old, new. by split_and!.
Defined.

Lemma any_agent_can_reject_an_approved_listing_witness :
  PropertyViewSet_reject 6 1 Cases.agency
  = (Property_delete 1 Cases.agency, Response 200 "property rejected and deleted ❌")
  ∧ properties (Property_delete 1 Cases.agency) !! 1 = None.
Proof.
  destruct (any_agent_can_reject_an_approved_listing 6 Cases.rival 1 Sample.flat
              Cases.agency) as [Hagent _]; [by vm_compute..|].
  apply Hagent; by vm_compute.
Defined.

Lemma new_listing_starts_closed_witness :
  ∃ p, properties (PropertyViewSet_create 6 Cases.repriced_flat Cases.agency).1 !! 5
       = Some p
    ∧ Property.agent p = 6 ∧ Property.is_approved p = false
    ∧ Property.price p = 12000%Q.
Proof.
  destruct (new_listing_starts_closed 6 Cases.repriced_flat Cases.agency
              (PropertyViewSet_create 6 Cases.repriced_flat Cases.agency).1 5)
    as (_ & _ & Hp & _); [by vm_compute|].
  exact Hp.
Defined.

Lemma only_owner_destroys_once_approved_witness :
  PropertyViewSet_destroy 6 1 Cases.agency = (Cases.agency, PermissionRefused).
Proof.
  destruct (only_owner_destroys_once_approved 6 Cases.rival 1 Sample.flat Cases.agency)
    as (_ & Hother & _); [by vm_compute..|].
  apply Hother; by vm_compute.
Defined.

Lemma documents_are_submitted_once_witness :
  AgentVerificationUploadView 6 (run_verifications django_defaults Desk.decisions Desk.filed)
  = (run_verifications django_defaults Desk.decisions Desk.filed,
     ValidationError "You’ve already submitted your documents.").
Proof.
  apply (documents_are_submitted_once django_defaults 6 Desk.empty_desk Desk.filed 0
           Desk.decisions).
  by vm_compute.
Defined.

Lemma approval_and_rejection_in_either_order_witness :
  agent_verifications
    (RejectAgentVerificationView django_defaults 1 0 (Some "blurred scan")
       (AgentVerificationApprovalView django_defaults 1 0 Desk.filed).1).1
  = agent_verifications
      (AgentVerificationApprovalView django_defaults 1 0
         (RejectAgentVerificationView django_defaults 1 0 (Some "blurred scan")
            Desk.filed).1).1.
Proof.
  destruct (approval_and_rejection_in_either_order django_defaults 1 0 "blurred scan"
              Desk.filed (AgentVerification.mk 6 false None false) Cases.rival)
    as (Hfirst & Hsecond & _); [by vm_compute..|].
  by rewrite Hfirst, Hsecond.
Defined.

Lemma dashboard_raises_for_every_investor_witness :
  DashboardView 4 400 (run django_defaults Cases.estate_requests Cases.owned_store)
  = TypeError.
Proof.
  destruct (dashboard_raises_for_every_investor django_defaults 4 Sample.full_plan "deed"
              0 Sample.store Cases.owned_store 0) as [Hraises _]; [by vm_compute|].
  apply Hraises.
Defined.

Lemma dashboard_total_keeps_withdrawn_commissions_witness :
  ∃ total',
    DashboardView 2 60 Cases.withdrawn_store
    = Data (Dashboard.mk (Dashboard.AgentData 4 total' 0) None)
    ∧ (total' == 0 + 30000 * (10 # 100))%Q.
Proof.
  destruct (dashboard_total_keeps_withdrawn_commissions 2 1 0 60 Sample.settled_store
              (Commission.mk 2 1 (30000 * (10 # 100)) false false)
              4 (0 + 30000 * (10 # 100))%Q 0 None)
    as (_ & Hafter); [by vm_compute..|].
  exact Hafter.
Defined.

Lemma refund_is_listed_for_guest_and_staff_witness :
  ∃ mine,
    RefundLogView_get_queryset 3 Sample.settled_store = Some mine
    ∧ mine !! new_pk (refund_logs Sample.settled_store) = None
    ∧ RefundLogView_get_queryset 3 Cases.cancelled_store
      = Some (<[new_pk (refund_logs Sample.settled_store) :=
                  RefundLog.mk 3 30000 "Cancelled short-let booking for 'Flat'"]> mine).
Proof.
  destruct (refund_is_listed_for_guest_and_staff django_defaults 3 1 50
              Sample.settled_store (Booking.set_is_paid true Sample.unpaid_stay)
              Sample.flat Sample.guest)
    as (Hmine & _); [by vm_compute..|].
  exact Hmine.
Defined.
